(** * BedrockVoiceKnowledgeStack: the resource graph of lib/cdk-stack.ts

    The stack constructor of [lib/cdk-stack.ts] is straight-line code that
    declares constructs inside one stack and mutates two kinds of shared
    objects afterwards: roles (through [addToPolicy]) and the REST API
    (through [addResource] and [addMethod]).  We embed it as a program in a
    small state-and-error monad over the stack under construction.  Objects
    of the source become handles into that stack, so that the two functions
    sharing [lambdaServiceRole] really share one role.

    The constructs come from libraries that are not part of the repository.
    What a library constructor does to the objects of this file is part of
    the step that calls it: the preflight method a resource is born with
    under a default CORS policy, the read grant the data source gives the
    role of its knowledge base, the managed policy the knowledge base
    attaches to that role, the checks on the stack's id and on the asset
    paths.  The constructs a library creates for its own use are left out. *)

From Stdlib Require Import Ascii String List Bool Arith ZArith QArith Lia.
Import ListNotations.

Open Scope string_scope.

(** ** Values that may mention attributes of constructs *)

(** A handle on a construct object: the stack itself ([this]) or one of the
    constructs declared in it, named by its construct id. *)
Inductive Ref : Type :=
| This
| Child (id : string).

Definition Ref_eqb (a b : Ref) : bool :=
  match a, b with
  | This, This => true
  | Child x, Child y => String.eqb x y
  | _, _ => false
  end.

(** A string of the source is a literal, the value of a property read on a
    construct ([documentBucket.bucketArn]), or a template literal mixing the
    two ([`${documentBucket.bucketArn}/*`]). *)
Inductive Fragment : Type :=
| Lit (s : string)
| Attr (target : Ref) (attribute : string).

Definition Value : Type := list Fragment.

Definition lit (s : string) : Value := [Lit s].
Definition prop (target : Ref) (attribute : string) : Value := [Attr target attribute].

Definition Fragment_eqb (a b : Fragment) : bool :=
  match a, b with
  | Lit x, Lit y => String.eqb x y
  | Attr r x, Attr q y => Ref_eqb r q && String.eqb x y
  | _, _ => false
  end.

Fixpoint Value_eqb (a b : Value) : bool :=
  match a, b with
  | [], [] => true
  | x :: a', y :: b' => Fragment_eqb x y && Value_eqb a' b'
  | _, _ => false
  end.

(** The constructs a value reads a property of. *)
Fixpoint refs_of (v : Value) : list Ref :=
  match v with
  | [] => []
  | Lit _ :: v' => refs_of v'
  | Attr r _ :: v' => r :: refs_of v'
  end.

Definition mentions (r : Ref) (v : Value) : bool :=
  existsb (Ref_eqb r) (refs_of v).

(** ** s3.Bucket *)

Module s3.

Inductive RemovalPolicy : Type :=
| DESTROY | RETAIN | SNAPSHOT | RETAIN_ON_UPDATE_OR_DELETE.

(** [s3.BlockPublicAccess]: the four switches of the bucket's public
    access block. *)
Record BlockPublicAccess : Type := {
  blockPublicAcls : bool;
  blockPublicPolicy : bool;
  ignorePublicAcls : bool;
  restrictPublicBuckets : bool
}.

Definition BLOCK_ALL : BlockPublicAccess :=
  {| blockPublicAcls := true; blockPublicPolicy := true;
     ignorePublicAcls := true; restrictPublicBuckets := true |}.

Inductive BucketEncryption : Type :=
| UNENCRYPTED | S3_MANAGED | KMS_MANAGED | KMS | DSSE_MANAGED | DSSE.

(** Every property of [BucketProps] is optional in the source language:
    [None] is a property left to the library's default. *)
Record BucketProps : Type := {
  removalPolicy : option RemovalPolicy;
  autoDeleteObjects : option bool;
  versioned : option bool;
  blockPublicAccess : option BlockPublicAccess;
  encryption : option BucketEncryption
}.

Definition fully_blocked (b : BlockPublicAccess) : bool :=
  blockPublicAcls b && blockPublicPolicy b
  && ignorePublicAcls b && restrictPublicBuckets b.

Definition encrypts (e : BucketEncryption) : bool :=
  match e with UNENCRYPTED => false | _ => true end.

End s3.

(** ** iam.Role and iam.PolicyStatement *)

Module iam.

Inductive Principal : Type :=
| ServicePrincipal (service : string).

(** A managed policy is one of the provider's, taken by name, or one that a
    construct of the library creates for itself and attaches to a role it
    was handed ([ownedBy], naming that construct). *)
Inductive ManagedPolicy : Type :=
| fromAwsManagedPolicyName (name : string)
| ownedBy (construct : string).

Record PolicyStatement : Type := {
  actions : list string;
  resources : list Value
}.

(** A role: what its constructor was given, and the managed policies and
    statements attached to it since, oldest first. *)
Record Role : Type := {
  assumedBy : Principal;
  managedPolicies : list ManagedPolicy;
  statements : list PolicyStatement
}.

Definition new_Role (p : Principal) (mp : list ManagedPolicy) : Role :=
  {| assumedBy := p; managedPolicies := mp; statements := [] |}.

Definition with_statement (r : Role) (s : PolicyStatement) : Role :=
  {| assumedBy := assumedBy r;
     managedPolicies := managedPolicies r;
     statements := statements r ++ [s] |}.

Definition with_managed_policy (r : Role) (mp : ManagedPolicy) : Role :=
  {| assumedBy := assumedBy r;
     managedPolicies := managedPolicies r ++ [mp];
     statements := statements r |}.

End iam.

(** ** bedrock.VectorKnowledgeBase and bedrock.S3DataSource *)

Module bedrock.

Inductive BedrockFoundationModel : Type :=
| TITAN_EMBED_TEXT_V1
| OtherModel (modelId : string).

Record VectorKnowledgeBaseProps : Type := {
  embeddingsModel : BedrockFoundationModel;
  name : string;
  description : string;
  existingRole : option Ref
}.

Inductive ChunkingStrategy : Type :=
| FIXED_SIZE (maxTokens overlapPercentage : Z).

(** The two validity constraints of the data model: a positive unit size
    and an overlap fraction in [0,1).  The source gives the overlap as a
    percentage; the fraction is that percentage over one hundred. *)
Definition overlapFraction (overlapPercentage : Z) : Q :=
  overlapPercentage # 100.

Definition chunking_in_range (maxTokens overlapPercentage : Z) : bool :=
  (0 <? maxTokens)%Z
  && Qle_bool 0 (overlapFraction overlapPercentage)
  && negb (Qle_bool 1 (overlapFraction overlapPercentage)).

(** Modelled from the spec: [ChunkingStrategy.fixedSize] belongs to the
    external construct library and is not part of this repository.  The
    specification has chunking parameters outside the valid range abort
    the construction, and nothing else is said about the function, so it
    records its two parameters when they are in range. *)
Definition fixedSize (maxTokens overlapPercentage : Z) : option ChunkingStrategy :=
  if chunking_in_range maxTokens overlapPercentage
  then Some (FIXED_SIZE maxTokens overlapPercentage)
  else None.

Record S3DataSourceProps : Type := {
  bucket : Ref;
  knowledgeBase : Ref;
  dataSourceName : string;
  chunkingStrategy : ChunkingStrategy
}.

End bedrock.

(** ** lambda.LayerVersion and lambda.Function *)

(** [path.join]: the segments joined by the separator.  The normalisation of
    [..] segments is left out; no property below depends on the asset paths. *)
Definition path_join (segments : list string) : string :=
  String.concat "/" segments.

Module lambda.

Inductive Runtime : Type :=
| PYTHON_3_13
| OtherRuntime (name : string).

Inductive Code : Type :=
| fromAsset (path : string).

Definition assetPath (c : Code) : string :=
  match c with
  | fromAsset path => path
  end.

Record LayerVersionProps : Type := {
  layerCode : Code;
  compatibleRuntimes : list Runtime;
  layerDescription : string
}.

Record FunctionProps : Type := {
  runtime : Runtime;
  handler : string;
  code : Code;
  role : Ref;
  timeoutSeconds : Z;
  memorySize : Z;
  layers : list Ref;
  environment : list (string * Value)
}.

End lambda.

(** ** apigateway.RestApi *)

Module apigateway.

(** [apigateway.Cors.ALL_ORIGINS] and [apigateway.Cors.ALL_METHODS] are
    constants of the construct library.  They are kept as names, next to
    the explicit lists a policy may give instead. *)
Inductive Origins : Type :=
| ALL_ORIGINS
| origins (l : list string).

Inductive Methods : Type :=
| ALL_METHODS
| verbs (l : list string).

Record CorsOptions : Type := {
  allowOrigins : Origins;
  allowMethods : Methods;
  allowHeaders : list string
}.

Record RestApiProps : Type := {
  restApiName : string;
  apiDescription : string;
  defaultCorsPreflightOptions : option CorsOptions
}.

(** An integration binds a method to a function, or answers by itself: the
    mock integration of a CORS preflight. *)
Inductive Integration : Type :=
| LambdaIntegration (fn : Ref)
| MockIntegration.

Record Method : Type := {
  httpMethod : string;
  integration : Integration
}.

(** A resource of the API.  Resources are kept in the order they were
    added; [parent] is the position of the resource it was added to, and
    the root resource, which has none, sits at position 0. *)
Record Resource : Type := {
  parent : option nat;
  pathPart : string;
  methods : list Method
}.

Record RestApi : Type := {
  props : RestApiProps;
  resourceTable : list Resource
}.

Definition root : nat := 0%nat.

(** Under a default CORS policy every resource, the root included, is born
    with the preflight method: OPTIONS on a mock integration. *)
Definition preflight (p : RestApiProps) : list Method :=
  match defaultCorsPreflightOptions p with
  | Some _ => [ {| httpMethod := "OPTIONS"; integration := MockIntegration |} ]
  | None => []
  end.

Definition new_RestApi (p : RestApiProps) : RestApi :=
  {| props := p;
     resourceTable :=
       [ {| parent := None; pathPart := ""; methods := preflight p |} ] |}.

Definition children_of (a : RestApi) (i : nat) : list Resource :=
  filter (fun r => match parent r with
                   | Some j => Nat.eqb i j
                   | None => false
                   end) (resourceTable a).

Definition top_level (a : RestApi) : list Resource := children_of a root.

Definition verb_methods (verb : string) (r : Resource) : list Method :=
  filter (fun m => String.eqb (httpMethod m) verb) (methods r).

Fixpoint ends_with_slash (s : string) : bool :=
  match s with
  | EmptyString => false
  | String c EmptyString => Ascii.eqb c "/"%char
  | String _ s' => ends_with_slash s'
  end.

(** The path of a resource, read off its chain of parents: the root is [/],
    and a resource appends its path part to the path of its parent, after
    a separator unless that path ends in one.  The chain is followed for at
    most [fuel] links; a resource table with [n] entries has no chain
    longer than [n]. *)
Fixpoint path_from (fuel : nat) (t : list Resource) (i : nat) : string :=
  match fuel with
  | O => ""
  | S fuel' =>
      match nth_error t i with
      | None => ""
      | Some r =>
          match parent r with
          | None => "/"
          | Some j =>
              let above := path_from fuel' t j in
              (if ends_with_slash above then above else above ++ "/")
              ++ pathPart r
          end
      end
  end.

Definition path_of (a : RestApi) (i : nat) : string :=
  path_from (length (resourceTable a)) (resourceTable a) i.

(** The route bindings of the API: (path, verb, integration), resource by
    resource in the order the resources were added. *)
Fixpoint routes_from (a : RestApi) (i : nat) (rs : list Resource)
  : list (string * string * Integration) :=
  match rs with
  | [] => []
  | r :: rs' =>
      map (fun m => (path_of a i, httpMethod m, integration m)) (methods r)
      ++ routes_from a (S i) rs'
  end.

Definition routes (a : RestApi) : list (string * string * Integration) :=
  routes_from a 0%nat (resourceTable a).



End apigateway.

(** ** cdk.CfnOutput *)

Record CfnOutputProps : Type := {
  value : Value;
  outputDescription : string
}.

(** ** The stack under construction *)

Inductive Construct : Type :=
| CBucket (p : s3.BucketProps)
| CRole (r : iam.Role)
| CVectorKnowledgeBase (p : bedrock.VectorKnowledgeBaseProps)
| CS3DataSource (p : bedrock.S3DataSourceProps)
| CLayerVersion (p : lambda.LayerVersionProps)
| CFunction (p : lambda.FunctionProps)
| CRestApi (a : apigateway.RestApi)
| COutput (p : CfnOutputProps).

(** What the constructor did, in the order it did it: the steps of the
    source, and the changes a library constructor made to a role it was
    handed, with the construct that made them. *)
Inductive Event : Type :=
| Constructed (id : string)
| StatementAdded (role : string) (s : iam.PolicyStatement)
| ResourceAdded (api : string) (index : nat)
| MethodAdded (api : string) (resource : nat) (verb : string)
              (i : apigateway.Integration)
| LibraryGranted (by_ : string) (role : string) (s : iam.PolicyStatement)
| LibraryAttached (by_ : string) (role : string) (mp : iam.ManagedPolicy).

Record StackProps : Type := {
  stackDescription : option string;
  envAccount : option string;
  envRegion : option string
}.

(** The constructs of a stack are kept with their ids in construction order:
    the order is what the ordering properties are about. *)
Record Stack : Type := {
  stackId : string;
  stackProps : option StackProps;
  constructs : list (string * Construct);
  journal : list Event
}.

Inductive Error : Type :=
| DuplicateId (id : string)
| NotConstructed (r : Ref)
| WrongKind (r : Ref)
| NoSuchResource (api : string) (index : nat)
| DuplicateResource (api : string) (pathPart : string)
| DuplicateMethod (api : string) (index : nat) (verb : string)
| InvalidChunking
| InvalidStackName (name : string)
| MissingAsset (path : string).

Inductive Outcome (A : Type) : Type :=
| Ok (a : A)
| Fail (e : Error).

Arguments Ok {A} a.
Arguments Fail {A} e.

(** Construction steps read and change the stack and may abort. *)
Definition Build (A : Type) : Type := Stack -> Outcome (A * Stack).

Definition ret {A} (a : A) : Build A := fun s => Ok (a, s).

Definition bind {A B} (c : Build A) (k : A -> Build B) : Build B :=
  fun s => match c s with
           | Ok (a, s') => k a s'
           | Fail e => Fail e
           end.

Definition abort {A} (e : Error) : Build A := fun _ => Fail e.

Declare Scope build_scope.
Delimit Scope build_scope with build.

Notation "x <- c ;; k" := (bind c (fun x => k))
  (at level 61, c at next level, right associativity) : build_scope.
Notation "c ;; k" := (bind c (fun _ => k))
  (at level 61, right associativity) : build_scope.

Open Scope build_scope.

Fixpoint lookup {A} (id : string) (l : list (string * A)) : option A :=
  match l with
  | [] => None
  | (k, a) :: l' => if String.eqb id k then Some a else lookup id l'
  end.

Fixpoint replace {A} (id : string) (a : A) (l : list (string * A))
  : list (string * A) :=
  match l with
  | [] => []
  | (k, b) :: l' =>
      if String.eqb id k then (k, a) :: l' else (k, b) :: replace id a l'
  end.

Definition ids {A} (l : list (string * A)) : list string := map fst l.

Definition find (r : Ref) (s : Stack) : option Construct :=
  match r with
  | This => None
  | Child id => lookup id (constructs s)
  end.

(** [new C(this, id, props)]: the construct is registered in the stack under
    its id.  Two constructs of one scope cannot share an id. *)
Definition construct (id : string) (c : Construct) : Build Ref :=
  fun s =>
    match lookup id (constructs s) with
    | Some _ => Fail (DuplicateId id)
    | None =>
        Ok (Child id,
            {| stackId := stackId s;
               stackProps := stackProps s;
               constructs := constructs s ++ [(id, c)];
               journal := journal s ++ [Constructed id] |})
    end.

(** A change to a construct that is already in the stack. *)
Definition store (id : string) (c : Construct) (e : Event) : Build unit :=
  fun s =>
    Ok (tt,
        {| stackId := stackId s;
           stackProps := stackProps s;
           constructs := replace id c (constructs s);
           journal := journal s ++ [e] |}).

Definition of_option {A} (e : Error) (o : option A) : Build A :=
  match o with
  | Some a => ret a
  | None => abort e
  end.

(** [role.addToPolicy(statement)] *)
Definition addToPolicy (role : Ref) (st : iam.PolicyStatement) : Build unit :=
  fun s =>
    match role with
    | This => Fail (WrongKind This)
    | Child id =>
        match lookup id (constructs s) with
        | None => Fail (NotConstructed role)
        | Some (CRole r) =>
            store id (CRole (iam.with_statement r st)) (StatementAdded id st) s
        | Some _ => Fail (WrongKind role)
        end
    end.

(** A change a library constructor makes to a role it was handed. *)
Definition change_role (role : Ref) (f : iam.Role -> iam.Role)
           (e : string -> Event) : Build unit :=
  fun s =>
    match role with
    | This => Fail (WrongKind This)
    | Child id =>
        match lookup id (constructs s) with
        | None => Fail (NotConstructed role)
        | Some (CRole r) => store id (CRole (f r)) (e id) s
        | Some _ => Fail (WrongKind role)
        end
    end.

Definition grantByLibrary (by_ : string) (role : Ref) (st : iam.PolicyStatement)
  : Build unit :=
  change_role role (fun r => iam.with_statement r st)
              (fun id => LibraryGranted by_ id st).

Definition attachByLibrary (by_ : string) (role : Ref) (mp : iam.ManagedPolicy)
  : Build unit :=
  change_role role (fun r => iam.with_managed_policy r mp)
              (fun id => LibraryAttached by_ id mp).

(** [new bedrock.VectorKnowledgeBase(this, id, props)]: the knowledge base
    is registered, and it attaches a managed policy of its own, for access
    to its vector store, to the role it was given.  Without [existingRole]
    the library creates a role for itself, which is left out. *)
Definition new_VectorKnowledgeBase (id : string)
           (p : bedrock.VectorKnowledgeBaseProps) : Build Ref :=
  kb <- construct id (CVectorKnowledgeBase p) ;;
  match bedrock.existingRole p with
  | Some role => attachByLibrary id role (iam.ownedBy id) ;; ret kb
  | None => ret kb
  end.

(** The role a knowledge base runs under. *)
Definition role_of_knowledge_base (kb : Ref) : Build (option Ref) :=
  fun s =>
    match find kb s with
    | None => Fail (NotConstructed kb)
    | Some (CVectorKnowledgeBase p) => Ok (bedrock.existingRole p, s)
    | Some _ => Fail (WrongKind kb)
    end.

(** [bucket.grantRead(role)]: the statement the bucket grants. *)
Definition bucketReadStatement (bucket : Ref) : iam.PolicyStatement :=
  {| iam.actions := [ "s3:GetObject*"; "s3:GetBucket*"; "s3:List*" ];
     iam.resources :=
       [ prop bucket "bucketArn"; (prop bucket "bucketArn" ++ lit "/*")%list ] |}.

(** [new bedrock.S3DataSource(this, id, props)]: the data source is
    registered, and it has its bucket grant read access to the role of its
    knowledge base. *)
Definition new_S3DataSource (id : string) (p : bedrock.S3DataSourceProps)
  : Build Ref :=
  ds <- construct id (CS3DataSource p) ;;
  role <- role_of_knowledge_base (bedrock.knowledgeBase p) ;;
  match role with
  | Some r => grantByLibrary id r (bucketReadStatement (bedrock.bucket p)) ;; ret ds
  | None => ret ds
  end.

(** [new lambda.LayerVersion(this, id, props)] and
    [new lambda.Function(this, id, props)]: the construct is registered and
    its code asset is staged, which fails when there is nothing at the
    asset's path. *)
Definition new_LayerVersion (existsSync : string -> bool) (id : string)
           (p : lambda.LayerVersionProps) : Build Ref :=
  layer <- construct id (CLayerVersion p) ;;
  if existsSync (lambda.assetPath (lambda.layerCode p))
  then ret layer
  else abort (MissingAsset (lambda.assetPath (lambda.layerCode p))).

Definition new_Function (existsSync : string -> bool) (id : string)
           (p : lambda.FunctionProps) : Build Ref :=
  fn <- construct id (CFunction p) ;;
  if existsSync (lambda.assetPath (lambda.code p))
  then ret fn
  else abort (MissingAsset (lambda.assetPath (lambda.code p))).

(** A resource object of a REST API: the API and the resource's position in
    its table. *)
Record ResourceRef : Type := {
  api : string;
  index : nat
}.

Definition find_api (id : string) (s : Stack) : Outcome apigateway.RestApi :=
  match lookup id (constructs s) with
  | None => Fail (NotConstructed (Child id))
  | Some (CRestApi a) => Ok a
  | Some _ => Fail (WrongKind (Child id))
  end.

(** [api.root] *)
Definition api_root (a : Ref) : Build ResourceRef :=
  fun s =>
    match a with
    | This => Fail (WrongKind This)
    | Child id =>
        match find_api id s with
        | Ok _ => Ok ({| api := id; index := apigateway.root |}, s)
        | Fail e => Fail e
        end
    end.

(** [resource.addResource(pathPart)]: a new resource below [resource], born
    with the preflight method when the API has a default CORS policy.  Two
    resources below one parent cannot share a path part. *)
Definition addResource (res : ResourceRef) (part : string) : Build ResourceRef :=
  fun s =>
    match find_api (api res) s with
    | Fail e => Fail e
    | Ok a =>
        match nth_error (apigateway.resourceTable a) (index res) with
        | None => Fail (NoSuchResource (api res) (index res))
        | Some _ =>
            if existsb (fun r => String.eqb (apigateway.pathPart r) part)
                       (apigateway.children_of a (index res))
            then Fail (DuplicateResource (api res) part)
            else
              let i := length (apigateway.resourceTable a) in
              let a' :=
                {| apigateway.props := apigateway.props a;
                   apigateway.resourceTable :=
                     apigateway.resourceTable a
                     ++ [ {| apigateway.parent := Some (index res);
                             apigateway.pathPart := part;
                             apigateway.methods :=
                               apigateway.preflight (apigateway.props a) |} ] |} in
              match store (api res) (CRestApi a') (ResourceAdded (api res) i) s with
              | Ok (_, s') => Ok ({| api := api res; index := i |}, s')
              | Fail e => Fail e
              end
        end
    end.

Fixpoint set_nth {A} (i : nat) (a : A) (l : list A) : list A :=
  match l, i with
  | [], _ => []
  | _ :: l', O => a :: l'
  | b :: l', S i' => b :: set_nth i' a l'
  end.

(** [resource.addMethod(verb, integration)]: one more method on [resource].
    A resource carries a verb at most once. *)
Definition addMethod (res : ResourceRef) (verb : string)
           (i : apigateway.Integration) : Build unit :=
  fun s =>
    match find_api (api res) s with
    | Fail e => Fail e
    | Ok a =>
        match nth_error (apigateway.resourceTable a) (index res) with
        | None => Fail (NoSuchResource (api res) (index res))
        | Some r =>
            if existsb (fun m => String.eqb (apigateway.httpMethod m) verb)
                       (apigateway.methods r)
            then Fail (DuplicateMethod (api res) (index res) verb)
            else
              let r' :=
                {| apigateway.parent := apigateway.parent r;
                   apigateway.pathPart := apigateway.pathPart r;
                   apigateway.methods :=
                     apigateway.methods r
                     ++ [ {| apigateway.httpMethod := verb;
                             apigateway.integration := i |} ] |} in
              let a' :=
                {| apigateway.props := apigateway.props a;
                   apigateway.resourceTable :=
                     set_nth (index res) r' (apigateway.resourceTable a) |} in
              store (api res) (CRestApi a')
                    (MethodAdded (api res) (index res) verb i) s
        end
    end.

(** ** The constructor of BedrockVoiceKnowledgeStack *)

(** What the constructor is run on: the ids already taken in [scope], the
    stack's own [id] and [props], the directory of the source file
    ([__dirname]), which the asset paths start from, and the file system,
    as far as the constructor looks at it: which paths exist. *)
Record Config : Type := {
  scope : list string;
  id : string;
  stackprops : option StackProps;
  dirname : string;
  existsSync : string -> bool
}.

(** The id a construct is registered under: path separators are rewritten. *)
Fixpoint sanitizeId (s : string) : string :=
  match s with
  | EmptyString => EmptyString
  | String c s' =>
      if Ascii.eqb c "/"%char then "--" ++ sanitizeId s' else String c (sanitizeId s')
  end.

Definition is_letter (c : Ascii.ascii) : bool :=
  let n := Ascii.nat_of_ascii c in
  (Nat.leb 65 n && Nat.leb n 90) || (Nat.leb 97 n && Nat.leb n 122).

Definition is_digit (c : Ascii.ascii) : bool :=
  let n := Ascii.nat_of_ascii c in
  Nat.leb 48 n && Nat.leb n 57.

Fixpoint name_tail (s : string) : bool :=
  match s with
  | EmptyString => true
  | String c s' => (is_letter c || is_digit c || Ascii.eqb c "-"%char) && name_tail s'
  end.

(** A stack name is a letter followed by letters, digits and hyphens. *)
Definition valid_stack_name (s : string) : bool :=
  match s with
  | EmptyString => false
  | String c s' => is_letter c && name_tail s'
  end.

(** [super(scope, id, props)]: the stack registers itself in its scope under
    its sanitized id, which must be free there, takes that id as its name,
    which must be a valid stack name, and starts out empty.  The stack is
    taken to be declared in the app itself, with no stack name among its
    props; other ways to name a stack are left out. *)
Definition super (cfg : Config) : Outcome Stack :=
  if existsb (String.eqb (sanitizeId (id cfg))) (scope cfg)
  then Fail (DuplicateId (sanitizeId (id cfg)))
  else if valid_stack_name (sanitizeId (id cfg))
  then Ok {| stackId := sanitizeId (id cfg);
             stackProps := stackprops cfg;
             constructs := [];
             journal := [] |}
  else Fail (InvalidStackName (sanitizeId (id cfg))).

(** Property reads of the source. *)
Definition bucketArn (b : Ref) : Value := prop b "bucketArn".
Definition bucketName (b : Ref) : Value := prop b "bucketName".
Definition knowledgeBaseId (k : Ref) : Value := prop k "knowledgeBaseId".
Definition dataSourceId (d : Ref) : Value := prop d "dataSourceId".
Definition region (s : Ref) : Value := prop s "region".
Definition url (a : Ref) : Value := prop a "url".

(** The policy statements of the source, in the order they are declared. *)
Definition lambdaBedrockStatement : iam.PolicyStatement :=
  {| iam.actions :=
       [ "bedrock:InvokeModel";
         "bedrock:Retrieve";
         "bedrock:RetrieveAndGenerate";
         "bedrock:ListKnowledgeBases";
         "bedrock:GetKnowledgeBase";
         "bedrock:UpdateKnowledgeBase";
         "bedrock:CreateKnowledgeBase";
         "bedrock:DeleteKnowledgeBase";
         "bedrock-agent:*";
         "bedrock-agent-runtime:*" ];
     iam.resources := [ lit "*" ] |}.

Definition lambdaPollyStatement : iam.PolicyStatement :=
  {| iam.actions := [ "polly:SynthesizeSpeech"; "polly:DescribeVoices" ];
     iam.resources := [ lit "*" ] |}.

Definition lambdaTranscribeStatement : iam.PolicyStatement :=
  {| iam.actions :=
       [ "transcribe:StartStreamTranscription";
         "transcribe:StartStreamTranscriptionWebSocket" ];
     iam.resources := [ lit "*" ] |}.

Definition s3Statement (documentBucket : Ref) : iam.PolicyStatement :=
  {| iam.actions := [ "s3:GetObject"; "s3:PutObject"; "s3:ListBucket" ];
     iam.resources :=
       [ bucketArn documentBucket;
         (bucketArn documentBucket ++ lit "/*")%list ] |}.

Definition bedrockInvokeStatement : iam.PolicyStatement :=
  {| iam.actions := [ "bedrock:InvokeModel" ];
     iam.resources := [ lit "*" ] |}.

(** The body of the constructor after [super], statement by statement. *)
Definition body (this : Ref) (__dirname : string) (existsSync : string -> bool)
  : Build unit :=
  documentBucket <- construct "DocumentBucket" (CBucket
    {| s3.removalPolicy := Some s3.DESTROY;
       s3.autoDeleteObjects := Some true;
       s3.versioned := Some true;
       s3.blockPublicAccess := Some s3.BLOCK_ALL;
       s3.encryption := Some s3.S3_MANAGED |}) ;;

  lambdaServiceRole <- construct "LambdaServiceRole" (CRole
    (iam.new_Role
       (iam.ServicePrincipal "lambda.amazonaws.com")
       [ iam.fromAwsManagedPolicyName "service-role/AWSLambdaBasicExecutionRole" ])) ;;

  addToPolicy lambdaServiceRole lambdaBedrockStatement ;;
  addToPolicy lambdaServiceRole lambdaPollyStatement ;;
  addToPolicy lambdaServiceRole lambdaTranscribeStatement ;;
  addToPolicy lambdaServiceRole (s3Statement documentBucket) ;;

  bedrockServiceRole <- construct "BedrockServiceRole" (CRole
    (iam.new_Role (iam.ServicePrincipal "bedrock.amazonaws.com") [])) ;;

  addToPolicy bedrockServiceRole (s3Statement documentBucket) ;;
  addToPolicy bedrockServiceRole bedrockInvokeStatement ;;

  knowledgeBase <- new_VectorKnowledgeBase "VectorKnowledgeBase"
    {| bedrock.embeddingsModel := bedrock.TITAN_EMBED_TEXT_V1;
       bedrock.name := "VoiceEnabledKnowledgeBase";
       bedrock.description := "Vector knowledge base with voice capabilities";
       bedrock.existingRole := Some bedrockServiceRole |} ;;

  chunking <- of_option InvalidChunking (bedrock.fixedSize 500 20) ;;
  s3DataSource <- new_S3DataSource "S3DataSource"
    {| bedrock.bucket := documentBucket;
       bedrock.knowledgeBase := knowledgeBase;
       bedrock.dataSourceName := "DocumentSource";
       bedrock.chunkingStrategy := chunking |} ;;

  transcribeLayer <- new_LayerVersion existsSync "TranscribeLayer"
    {| lambda.layerCode :=
         lambda.fromAsset
           (path_join [__dirname; "../lambda/layers/transcribe_streaming.zip"]);
       lambda.compatibleRuntimes := [ lambda.PYTHON_3_13 ];
       lambda.layerDescription :=
         "Layer containing Amazon Transcribe streaming SDK" |} ;;

  speechToTextFunction <- new_Function existsSync "SpeechToTextFunction"
    {| lambda.runtime := lambda.PYTHON_3_13;
       lambda.handler := "transcribe_function.lambda_handler";
       lambda.code :=
         lambda.fromAsset (path_join [__dirname; "../lambda/transcribe/src"]);
       lambda.role := lambdaServiceRole;
       lambda.timeoutSeconds := 30;
       lambda.memorySize := 256;
       lambda.layers := [ transcribeLayer ];
       lambda.environment := [ ("REGION", region this) ] |} ;;

  queryWithVoiceFunction <- new_Function existsSync "QueryWithVoiceFunction"
    {| lambda.runtime := lambda.PYTHON_3_13;
       lambda.handler := "kb_polly_function.lambda_handler";
       lambda.code :=
         lambda.fromAsset
           (path_join [__dirname; "../lambda/queryKnowledgeBase/src"]);
       lambda.role := lambdaServiceRole;
       lambda.timeoutSeconds := 30;
       lambda.memorySize := 256;
       lambda.layers := [];
       lambda.environment :=
         [ ("KNOWLEDGE_BASE_ID", knowledgeBaseId knowledgeBase);
           ("REGION", region this);
           ("DATA_SOURCE_ID", dataSourceId s3DataSource) ] |} ;;

  api <- construct "MultimodalKnowledgeApi" (CRestApi (apigateway.new_RestApi
    {| apigateway.restApiName := "Bedrock Voice Knowledge API";
       apigateway.apiDescription :=
         "API for interacting with a Bedrock knowledge base using voice and text";
       apigateway.defaultCorsPreflightOptions := Some
         {| apigateway.allowOrigins := apigateway.ALL_ORIGINS;
            apigateway.allowMethods := apigateway.ALL_METHODS;
            apigateway.allowHeaders :=
              [ "Content-Type"; "X-Amz-Date"; "Authorization"; "X-Api-Key" ] |} |})) ;;

  apiRoot <- api_root api ;;
  knowledgeBaseResource <- addResource apiRoot "knowledge-base" ;;

  queryResource <- addResource knowledgeBaseResource "query" ;;
  addMethod queryResource "POST" (apigateway.LambdaIntegration queryWithVoiceFunction) ;;

  apiRoot' <- api_root api ;;
  transcribeResource <- addResource apiRoot' "transcribe" ;;
  addMethod transcribeResource "POST" (apigateway.LambdaIntegration speechToTextFunction) ;;

  construct "ApiUrl" (COutput
    {| value := url api;
       outputDescription := "URL of the API Gateway" |}) ;;

  construct "KnowledgeBaseId" (COutput
    {| value := knowledgeBaseId knowledgeBase;
       outputDescription := "ID of the created Bedrock Knowledge Base" |}) ;;

  construct "DataSourceId" (COutput
    {| value := dataSourceId s3DataSource;
       outputDescription := "ID of the S3 data source" |}) ;;

  construct "DocumentBucketName" (COutput
    {| value := bucketName documentBucket;
       outputDescription := "Name of the S3 bucket for document storage" |}) ;;

  ret tt.

Definition BedrockVoiceKnowledgeStack (cfg : Config) : Outcome Stack :=
  match super cfg with
  | Fail e => Fail e
  | Ok s0 =>
      match body This (dirname cfg) (existsSync cfg) s0 with
      | Ok (_, s) => Ok s
      | Fail e => Fail e
      end
  end.

(** ** Reading the finished graph *)

Fixpoint select {A B} (f : A -> option B) (l : list (string * A))
  : list (string * B) :=
  match l with
  | [] => []
  | (k, a) :: l' =>
      match f a with
      | Some b => (k, b) :: select f l'
      | None => select f l'
      end
  end.

Definition buckets (g : Stack) : list (string * s3.BucketProps) :=
  select (fun c => match c with CBucket p => Some p | _ => None end) (constructs g).

Definition roles (g : Stack) : list (string * iam.Role) :=
  select (fun c => match c with CRole r => Some r | _ => None end) (constructs g).

Definition knowledgeBases (g : Stack)
  : list (string * bedrock.VectorKnowledgeBaseProps) :=
  select (fun c => match c with CVectorKnowledgeBase p => Some p | _ => None end)
         (constructs g).

Definition dataSources (g : Stack) : list (string * bedrock.S3DataSourceProps) :=
  select (fun c => match c with CS3DataSource p => Some p | _ => None end)
         (constructs g).

Definition functions (g : Stack) : list (string * lambda.FunctionProps) :=
  select (fun c => match c with CFunction p => Some p | _ => None end) (constructs g).

Definition restApis (g : Stack) : list (string * apigateway.RestApi) :=
  select (fun c => match c with CRestApi a => Some a | _ => None end) (constructs g).

(** The position of a construct in construction order. *)
Fixpoint position {A} (id : string) (l : list (string * A)) : option nat :=
  match l with
  | [] => None
  | (k, _) :: l' =>
      if String.eqb id k then Some 0%nat
      else option_map S (position id l')
  end.

Definition constructed_before (g : Stack) (a b : string) : bool :=
  match position a (constructs g), position b (constructs g) with
  | Some i, Some j => Nat.ltb i j
  | _, _ => false
  end.

(** ** Permissions *)

Definition is_wildcard (v : Value) : bool := Value_eqb v (lit "*").

(** The two resource patterns of a bucket: the bucket and its objects. *)
Definition storagePatterns (b : Ref) : list Value :=
  [ bucketArn b; (bucketArn b ++ lit "/*")%list ].

(** A statement refers to a construct when one of its resources reads a
    property of it. *)
Definition references (b : Ref) (st : iam.PolicyStatement) : bool :=
  existsb (mentions b) (iam.resources st).

(** A statement touches storage when it refers to the bucket or allows an
    action of the storage service. *)
Definition touches_storage (b : Ref) (st : iam.PolicyStatement) : bool :=
  references b st || existsb (String.prefix "s3:") (iam.actions st).

(** Everything a role draws permissions from: the managed policies it was
    constructed with and the statements granted to it. *)
Inductive Permission : Type :=
| Attached (mp : iam.ManagedPolicy)
| Granted (st : iam.PolicyStatement).

Definition permissions (r : iam.Role) : list Permission :=
  (map Attached (iam.managedPolicies r) ++ map Granted (iam.statements r))%list.

(** The grants the constructor declared for a role: the statements it
    passed to [addToPolicy], in order. *)
Fixpoint declared (role : string) (l : list Event) : list iam.PolicyStatement :=
  match l with
  | [] => []
  | StatementAdded r st :: l' =>
      if String.eqb r role then st :: declared role l' else declared role l'
  | _ :: l' => declared role l'
  end.

(** Every statement the journal has a role receive, from the source or from
    a library constructor, in order. *)
Fixpoint granted (role : string) (l : list Event) : list iam.PolicyStatement :=
  match l with
  | [] => []
  | StatementAdded r st :: l' | LibraryGranted _ r st :: l' =>
      if String.eqb r role then st :: granted role l' else granted role l'
  | _ :: l' => granted role l'
  end.

(** The managed policies the journal has library constructors attach. *)
Fixpoint attached (role : string) (l : list Event) : list iam.ManagedPolicy :=
  match l with
  | [] => []
  | LibraryAttached _ r mp :: l' =>
      if String.eqb r role then mp :: attached role l' else attached role l'
  | _ :: l' => attached role l'
  end.

(** A role whose permissions are its declared grants and nothing else. *)
Definition only_declared_grants (g : Stack) (role : string) (r : iam.Role) : Prop :=
  permissions r = map Granted (declared role (journal g)).

Definition entities (g : Stack) : list string := ids (constructs g).

(** The journal and the roles agree: a role holds the statements the
    journal has it receive, and nothing is granted to a construct that does
    not exist. *)
Definition grants_recorded (s : Stack) : Prop :=
  (forall x r, lookup x (constructs s) = Some (CRole r) ->
               iam.statements r = granted x (journal s))
  /\ (forall x, lookup x (constructs s) = None -> granted x (journal s) = []).

(** A step preserves a property of the stack when every successful run of
    it from a stack with the property ends in one. *)
Definition preserves {A} (I : Stack -> Prop) (c : Build A) : Prop :=
  forall s a s', I s -> c s = Ok (a, s') -> I s'.

(** ** Routes *)

(** Every top-level resource carries exactly one POST method. *)
Definition top_level_post_routes (a : apigateway.RestApi) : Prop :=
  length (apigateway.top_level a) = 2%nat /\
  forall r, In r (apigateway.top_level a) ->
            exists m, apigateway.verb_methods "POST" r = [m].

(** The routes of an API under one verb. *)
Definition verb_routes (verb : string) (a : apigateway.RestApi)
  : list (string * string * apigateway.Integration) :=
  filter (fun r => String.eqb (snd (fst r)) verb) (apigateway.routes a).

(** Scanning the journal: every method is bound to a function that was
    constructed earlier on. *)
Fixpoint handlers_before_routes (seen : list string) (l : list Event) : bool :=
  match l with
  | [] => true
  | Constructed x :: l' => handlers_before_routes (x :: seen) l'
  | MethodAdded _ _ _ (apigateway.LambdaIntegration (Child fn)) :: l' =>
      existsb (String.eqb fn) seen && handlers_before_routes seen l'
  | MethodAdded _ _ _ (apigateway.LambdaIntegration This) :: _ => false
  | _ :: l' => handlers_before_routes seen l'
  end.

Definition is_route (e : Event) : bool :=
  match e with
  | MethodAdded _ _ _ _ => true
  | _ => false
  end.

(** ** Linking *)

(** A value is resolved in a graph when every construct it reads a property
    of is in the graph. *)
Definition constructed (g : Stack) (r : Ref) : bool :=
  match r with
  | This => true
  | Child x =>
      match lookup x (constructs g) with
      | Some _ => true
      | None => false
      end
  end.

Definition resolved (g : Stack) (v : Value) : bool :=
  forallb (constructed g) (refs_of v).

Section Linking.

(** The identifiers provisioning generates, per construct and attribute. *)
Variable generated : Ref -> string -> string.

(** Modelled from the spec: the final linking pass, which belongs to the
    external provisioning tool and is not part of this repository.  Once
    every entity is constructed, a reference to a generated identifier is
    replaced by that identifier; a reference to an entity the graph does
    not hold stays unresolved. *)
Fixpoint link (g : Stack) (v : Value) : option string :=
  match v with
  | [] => Some ""
  | Lit s :: v' => option_map (append s) (link g v')
  | Attr r a :: v' =>
      if constructed g r
      then option_map (append (generated r a)) (link g v')
      else None
  end.

Definition link_environment (g : Stack) (env : list (string * Value))
  : list (string * option string) :=
  map (fun kv => (fst kv, link g (snd kv))) env.

End Linking.

(** ** Deletion *)

(** A removal policy other than [DESTROY] keeps the resource when the stack
    is deleted. *)
Definition retains (p : s3.RemovalPolicy) : bool :=
  match p with
  | s3.DESTROY => false
  | _ => true
  end.

Definition cfg0 : Config :=
  {| scope := [];
     id := "BedrockVoiceKnowledgeStack";
     stackprops := None;
     dirname := "/app/lib";
     existsSync := fun _ => true |}.

(** ** Dependencies between constructs *)

Definition outputs (g : Stack) : list (string * CfnOutputProps) :=
  select (fun c => match c with COutput p => Some p | _ => None end) (constructs g).

Inductive Kind : Type :=
| KBucket | KRole | KKnowledgeBase | KDataSource
| KLayer | KFunction | KRestApi | KOutput.

Definition kind_of (c : Construct) : Kind :=
  match c with
  | CBucket _ => KBucket
  | CRole _ => KRole
  | CVectorKnowledgeBase _ => KKnowledgeBase
  | CS3DataSource _ => KDataSource
  | CLayerVersion _ => KLayer
  | CFunction _ => KFunction
  | CRestApi _ => KRestApi
  | COutput _ => KOutput
  end.

Definition Kind_eqb (a b : Kind) : bool :=
  match a, b with
  | KBucket, KBucket | KRole, KRole | KKnowledgeBase, KKnowledgeBase
  | KDataSource, KDataSource | KLayer, KLayer | KFunction, KFunction
  | KRestApi, KRestApi | KOutput, KOutput => true
  | _, _ => false
  end.







Definition has_kind (g : Stack) (rk : Ref * Kind) : bool :=
  match find (fst rk) g with
  | Some c => Kind_eqb (kind_of c) (snd rk)
  | None => false
  end.


Fixpoint distinct (l : list string) : bool :=
  match l with
  | [] => true
  | x :: l' => negb (existsb (String.eqb x) l') && distinct l'
  end.

(** ** Roles and the constructs that run under them *)







(** A role lists an action when one of its statements names it. *)
Definition lists_action (r : iam.Role) (action : string) : bool :=
  existsb (fun st => existsb (String.eqb action) (iam.actions st))
          (iam.statements r).


Definition only_storage_actions (st : iam.PolicyStatement) : bool :=
  forallb (String.prefix "s3:") (iam.actions st).

Definition no_storage_action (st : iam.PolicyStatement) : bool :=
  negb (existsb (String.prefix "s3:") (iam.actions st)).

(** ** The resource tree of an API *)

(** Only the root has no parent, and every other resource was added to a
    resource that was already there. *)
Fixpoint parents_precede (i : nat) (rs : list apigateway.Resource) : bool :=
  match rs with
  | [] => true
  | r :: rs' =>
      match apigateway.parent r with
      | None => Nat.eqb i 0
      | Some j => Nat.ltb j i
      end && parents_precede (S i) rs'
  end.

Definition paths (a : apigateway.RestApi) : list string :=
  map (apigateway.path_of a) (seq 0 (length (apigateway.resourceTable a))).

(** A path part in braces is a path parameter; [{proxy+}] is the greedy one. *)
Definition is_static (part : string) : bool :=
  negb (String.prefix "{" part).

Definition is_preflight (m : apigateway.Method) : bool :=
  String.eqb (apigateway.httpMethod m) "OPTIONS"
  && match apigateway.integration m with
     | apigateway.MockIntegration => true
     | apigateway.LambdaIntegration _ => false
     end.

(** The resources that carry a method other than the preflight, by
    position. *)
Fixpoint routed_from (i : nat) (rs : list apigateway.Resource) : list nat :=
  match rs with
  | [] => []
  | r :: rs' =>
      if forallb is_preflight (apigateway.methods r)
      then routed_from (S i) rs'
      else i :: routed_from (S i) rs'
  end.

(** * Properties *)

(** ** The store *)

Lemma lookup_app {A} (x : string) (l1 l2 : list (string * A)) :
  lookup x (l1 ++ l2)%list =
  match lookup x l1 with
  | Some a => Some a
  | None => lookup x l2
  end.
Proof.
  induction l1 as [| [k a] l1 IH]; simpl.
  - reflexivity.
  - destruct (String.eqb x k); [ reflexivity | exact IH ].
Qed.

Lemma lookup_replace_same {A} (x : string) (a b : A) (l : list (string * A)) :
  lookup x l = Some b -> lookup x (replace x a l) = Some a.
Proof.
  induction l as [| [k c] l IH]; simpl.
  - discriminate.
  - destruct (String.eqb x k) eqn:E; simpl; rewrite E.
    + reflexivity.
    + exact IH.
Qed.

Lemma lookup_replace_other {A} (x y : string) (a : A) (l : list (string * A)) :
  x <> y -> lookup y (replace x a l) = lookup y l.
Proof.
  intros Hxy.
  induction l as [| [k c] l IH]; simpl.
  - reflexivity.
  - destruct (String.eqb x k) eqn:E; simpl.
    + apply String.eqb_eq in E. subst k.
      destruct (String.eqb y x) eqn:F; [ | reflexivity ].
      apply String.eqb_eq in F. congruence.
    + destruct (String.eqb y k); [ reflexivity | exact IH ].
Qed.

Lemma ids_replace {A} (x : string) (a : A) (l : list (string * A)) :
  ids (replace x a l) = ids l.
Proof.
  unfold ids.
  induction l as [| [k c] l IH]; simpl.
  - reflexivity.
  - destruct (String.eqb x k); simpl; [ reflexivity | now rewrite IH ].
Qed.

(** ** Construction steps *)

(** A fresh id is accepted, and the new construct comes last. *)
Lemma construct_fresh (x : string) (c : Construct) (s : Stack) :
  lookup x (constructs s) = None ->
  exists s', construct x c s = Ok (Child x, s')
             /\ constructs s' = (constructs s ++ [(x, c)])%list
             /\ journal s' = (journal s ++ [Constructed x])%list.
Proof.
  intros H. unfold construct. rewrite H.
  eexists. repeat split.
Qed.

(** An id already in the stack is a collision. *)
Lemma construct_collision (x : string) (c c' : Construct) (s : Stack) :
  lookup x (constructs s) = Some c' ->
  construct x c s = Fail (DuplicateId x).
Proof.
  intros H. unfold construct. now rewrite H.
Qed.

(** A construction step leaves what is already in the stack alone. *)
Lemma construct_frame (x y : string) (c : Construct) (s s' : Stack) (r : Ref) :
  construct x c s = Ok (r, s') ->
  x <> y ->
  lookup y (constructs s') = lookup y (constructs s).
Proof.
  unfold construct. intros H Hxy.
  destruct (lookup x (constructs s)) eqn:E; [ discriminate | ].
  injection H as _ <-. simpl.
  rewrite lookup_app. destruct (lookup y (constructs s)); [ reflexivity | ].
  simpl. destruct (String.eqb y x) eqn:F; [ | reflexivity ].
  apply String.eqb_eq in F. congruence.
Qed.

(** [addToPolicy] appends the statement to the role it is called on. *)
Lemma addToPolicy_grants (x : string) (st : iam.PolicyStatement) (s s' : Stack) :
  addToPolicy (Child x) st s = Ok (tt, s') ->
  exists r, lookup x (constructs s) = Some (CRole r)
            /\ lookup x (constructs s') = Some (CRole (iam.with_statement r st))
            /\ journal s' = (journal s ++ [StatementAdded x st])%list.
Proof.
  unfold addToPolicy, store. intros H.
  destruct (lookup x (constructs s)) as [c |] eqn:E; [ | discriminate ].
  destruct c; try discriminate.
  injection H as <-. exists r. simpl.
  repeat split. eapply lookup_replace_same. exact E.
Qed.

(** [addToPolicy] changes no other construct: the two functions that share
    one role see the same grants, and no other role gains any. *)
Lemma addToPolicy_frame (x y : string) (st : iam.PolicyStatement) (s s' : Stack) :
  addToPolicy (Child x) st s = Ok (tt, s') ->
  x <> y ->
  lookup y (constructs s') = lookup y (constructs s).
Proof.
  unfold addToPolicy, store. intros H Hxy.
  destruct (lookup x (constructs s)) as [c |] eqn:E; [ | discriminate ].
  destruct c; try discriminate.
  injection H as <-. simpl.
  now apply lookup_replace_other.
Qed.

(** Neither does it add or remove an entity. *)
Lemma addToPolicy_entities (r : Ref) (st : iam.PolicyStatement) (s s' : Stack) :
  addToPolicy r st s = Ok (tt, s') -> entities s' = entities s.
Proof.
  unfold addToPolicy, store, entities. intros H.
  destruct r as [| x]; [ discriminate | ].
  destruct (lookup x (constructs s)) as [c |]; [ | discriminate ].
  destruct c; try discriminate.
  injection H as <-. simpl. apply ids_replace.
Qed.

(** ** The journal records every grant *)

Lemma declared_app (x : string) (l1 l2 : list Event) :
  declared x (l1 ++ l2)%list = (declared x l1 ++ declared x l2)%list.
Proof.
  induction l1 as [| e l1 IH]; simpl.
  - reflexivity.
  - destruct e; try exact IH.
    destruct (String.eqb role x); simpl; now rewrite IH.
Qed.

Lemma granted_app (x : string) (l1 l2 : list Event) :
  granted x (l1 ++ l2)%list = (granted x l1 ++ granted x l2)%list.
Proof.
  induction l1 as [| e l1 IH]; simpl.
  - reflexivity.
  - destruct e; try exact IH;
      destruct (String.eqb role x); simpl; now rewrite IH.
Qed.

(** What the source declares for a role is among what the role is granted. *)
Lemma declared_granted (x : string) (l : list Event) (st : iam.PolicyStatement) :
  In st (declared x l) -> In st (granted x l).
Proof.
  induction l as [| e l IH]; simpl.
  - tauto.
  - destruct e; try exact IH.
    + destruct (String.eqb role x); simpl; [ | exact IH ].
      intros [H | H]; [ left; exact H | right; exact (IH H) ].
    + intros H. destruct (String.eqb role x); simpl; [ right | ]; exact (IH H).
Qed.

Lemma lookup_replace_none {A} (x y : string) (a : A) (l : list (string * A)) :
  lookup y (replace x a l) = None <-> lookup y l = None.
Proof.
  induction l as [| [k c] l IH]; simpl.
  - tauto.
  - destruct (String.eqb x k) eqn:E; simpl.
    + destruct (String.eqb y k); [ split; discriminate | tauto ].
    + destruct (String.eqb y k); [ split; discriminate | exact IH ].
Qed.

Lemma preserves_ret {A} (I : Stack -> Prop) (a : A) : preserves I (ret a).
Proof.
  intros s b s' Hs H. injection H as _ <-. exact Hs.
Qed.

Lemma preserves_abort {A} (I : Stack -> Prop) (e : Error) :
  preserves I (@abort A e).
Proof.
  intros s a s' _ H. discriminate H.
Qed.

Lemma preserves_bind {A B} (I : Stack -> Prop) (c : Build A) (k : A -> Build B) :
  preserves I c -> (forall a, preserves I (k a)) -> preserves I (bind c k).
Proof.
  intros Hc Hk s b s' Hs H. unfold bind in H.
  destruct (c s) as [[a s1] | e] eqn:E; [ | discriminate ].
  exact (Hk a s1 b s' (Hc s a s1 Hs E) H).
Qed.

Lemma preserves_of_option {A} (I : Stack -> Prop) (e : Error) (o : option A) :
  preserves I (of_option e o).
Proof.
  destruct o; simpl; [ apply preserves_ret | apply preserves_abort ].
Qed.

(** A new construct keeps the record straight, provided a new role starts
    without statements. *)
Lemma construct_recorded (x : string) (c : Construct) :
  (forall r, c = CRole r -> iam.statements r = []) ->
  preserves grants_recorded (construct x c).
Proof.
  intros Hc s h s' [Hrole Hnone] H. unfold construct in H.
  destruct (lookup x (constructs s)) eqn:E; [ discriminate | ].
  injection H as _ <-. unfold grants_recorded. simpl.
  split.
  - intros y r Hy. rewrite lookup_app in Hy.
    rewrite granted_app. simpl. rewrite app_nil_r.
    destruct (lookup y (constructs s)) eqn:F.
    + injection Hy as ->. now apply Hrole.
    + simpl in Hy. destruct (String.eqb y x); [ | discriminate ].
      injection Hy as Hy. rewrite (Hc r Hy). symmetry. now apply Hnone.
  - intros y Hy. rewrite lookup_app in Hy.
    rewrite granted_app. simpl. rewrite app_nil_r.
    destruct (lookup y (constructs s)) eqn:F; [ discriminate | ].
    now apply Hnone.
Qed.

(** A statement added to a role, by the source or by a library constructor,
    extends the role and the journal alike. *)
Lemma statement_recorded (x : string) (r : iam.Role) (st : iam.PolicyStatement)
      (e : Event) (s s' : Stack) (u : unit) :
  grants_recorded s ->
  lookup x (constructs s) = Some (CRole r) ->
  (forall y, granted y [e] = if String.eqb x y then [st] else []) ->
  store x (CRole (iam.with_statement r st)) e s = Ok (u, s') ->
  grants_recorded s'.
Proof.
  intros [Hrole Hnone] E He H. unfold store in H.
  injection H as _ <-. unfold grants_recorded. simpl.
  split.
  - intros y q Hy. rewrite granted_app, He.
    destruct (String.eqb x y) eqn:F.
    + apply String.eqb_eq in F. subst y.
      rewrite (lookup_replace_same x _ _ _ E) in Hy.
      injection Hy as <-. simpl. now rewrite (Hrole x r E).
    + rewrite app_nil_r. apply Hrole.
      rewrite lookup_replace_other in Hy; [ exact Hy | ].
      intros ->. rewrite String.eqb_refl in F. discriminate.
  - intros y Hy. apply lookup_replace_none in Hy.
    rewrite granted_app, He.
    destruct (String.eqb x y) eqn:F.
    + apply String.eqb_eq in F. subst y. congruence.
    + rewrite app_nil_r. now apply Hnone.
Qed.

(** A change that is no grant: to an API, or to the managed policies of a
    role. *)
Lemma store_recorded (x : string) (c0 c : Construct) (e : Event)
      (s s' : Stack) (u : unit) :
  grants_recorded s ->
  lookup x (constructs s) = Some c0 ->
  (forall r, c = CRole r ->
             exists r0, c0 = CRole r0 /\ iam.statements r = iam.statements r0) ->
  (forall y, granted y [e] = []) ->
  store x c e s = Ok (u, s') ->
  grants_recorded s'.
Proof.
  intros [Hrole Hnone] E Hc He H. unfold store in H.
  injection H as _ <-. unfold grants_recorded. simpl.
  split.
  - intros y q Hy. rewrite granted_app, He, app_nil_r.
    destruct (String.eqb x y) eqn:F.
    + apply String.eqb_eq in F. subst y.
      rewrite (lookup_replace_same x _ _ _ E) in Hy.
      injection Hy as Hy.
      destruct (Hc q Hy) as (r0 & -> & ->). now apply Hrole.
    + apply Hrole. rewrite lookup_replace_other in Hy; [ exact Hy | ].
      intros ->. rewrite String.eqb_refl in F. discriminate.
  - intros y Hy. apply lookup_replace_none in Hy.
    rewrite granted_app, He, app_nil_r. now apply Hnone.
Qed.

Lemma addToPolicy_recorded (role : Ref) (st : iam.PolicyStatement) :
  preserves grants_recorded (addToPolicy role st).
Proof.
  intros s u s' Hs H. unfold addToPolicy in H.
  destruct role as [| x]; [ discriminate | ].
  destruct (lookup x (constructs s)) as [c |] eqn:E; [ | discriminate ].
  destruct c; try discriminate. destruct u.
  eapply statement_recorded; [ exact Hs | exact E | | exact H ].
  intros y. simpl. destruct (String.eqb x y); reflexivity.
Qed.

Lemma grantByLibrary_recorded (by_ : string) (role : Ref) (st : iam.PolicyStatement) :
  preserves grants_recorded (grantByLibrary by_ role st).
Proof.
  intros s u s' Hs H. unfold grantByLibrary, change_role in H.
  destruct role as [| x]; [ discriminate | ].
  destruct (lookup x (constructs s)) as [c |] eqn:E; [ | discriminate ].
  destruct c; try discriminate. destruct u.
  eapply statement_recorded; [ exact Hs | exact E | | exact H ].
  intros y. simpl. destruct (String.eqb x y); reflexivity.
Qed.

Lemma attachByLibrary_recorded (by_ : string) (role : Ref) (mp : iam.ManagedPolicy) :
  preserves grants_recorded (attachByLibrary by_ role mp).
Proof.
  intros s u s' Hs H. unfold attachByLibrary, change_role in H.
  destruct role as [| x]; [ discriminate | ].
  destruct (lookup x (constructs s)) as [c |] eqn:E; [ | discriminate ].
  destruct c; try discriminate.
  eapply store_recorded; [ exact Hs | exact E | | | exact H ].
  - intros q [= <-]. exists r. split; reflexivity.
  - reflexivity.
Qed.

Lemma find_api_lookup (x : string) (s : Stack) (a : apigateway.RestApi) :
  find_api x s = Ok a -> lookup x (constructs s) = Some (CRestApi a).
Proof.
  unfold find_api.
  destruct (lookup x (constructs s)) as [c |]; [ | discriminate ].
  destruct c; try discriminate. now intros [= ->].
Qed.

Lemma api_root_recorded (a : Ref) : preserves grants_recorded (api_root a).
Proof.
  intros s r s' Hs H. unfold api_root in H.
  destruct a as [| x]; [ discriminate | ].
  destruct (find_api x s); [ | discriminate ].
  injection H as _ <-. exact Hs.
Qed.

Lemma addResource_recorded (res : ResourceRef) (part : string) :
  preserves grants_recorded (addResource res part).
Proof.
  intros s r s' Hs H. unfold addResource in H.
  destruct (find_api (api res) s) as [a | e] eqn:E; [ | discriminate ].
  apply find_api_lookup in E.
  destruct (nth_error (apigateway.resourceTable a) (index res)); [ | discriminate ].
  destruct (existsb _ _); [ discriminate | ].
  match type of H with
  | match ?c with _ => _ end = _ => destruct c as [[u s1] | e] eqn:F
  end; [ | discriminate ].
  injection H as _ <-.
  eapply store_recorded; [ exact Hs | exact E | | | exact F ].
  - intros q [= ].
  - reflexivity.
Qed.

Lemma addMethod_recorded (res : ResourceRef) (verb : string)
      (i : apigateway.Integration) :
  preserves grants_recorded (addMethod res verb i).
Proof.
  intros s u s' Hs H. unfold addMethod in H.
  destruct (find_api (api res) s) as [a | e] eqn:E; [ | discriminate ].
  apply find_api_lookup in E.
  destruct (nth_error (apigateway.resourceTable a) (index res)); [ | discriminate ].
  destruct (existsb _ _); [ discriminate | ].
  eapply store_recorded; [ exact Hs | exact E | | | exact H ].
  - intros q [= ].
  - reflexivity.
Qed.

Lemma role_of_knowledge_base_recorded (kb : Ref) :
  preserves grants_recorded (role_of_knowledge_base kb).
Proof.
  intros s r s' Hs H. unfold role_of_knowledge_base in H.
  destruct (find kb s) as [c |]; [ | discriminate ].
  destruct c; try discriminate.
  injection H as _ <-. exact Hs.
Qed.

Ltac recorded :=
  repeat first
    [ apply preserves_ret
    | apply preserves_abort
    | apply preserves_bind; [ | intros ? ]
    | apply addToPolicy_recorded
    | apply grantByLibrary_recorded
    | apply attachByLibrary_recorded
    | apply role_of_knowledge_base_recorded
    | apply api_root_recorded
    | apply addResource_recorded
    | apply addMethod_recorded
    | apply preserves_of_option
    | apply construct_recorded; intros ? [= <-]; reflexivity
    | apply construct_recorded; intros ? [= ]
    | match goal with
      | |- preserves _ (match ?o with _ => _ end) => destruct o
      end ].

(** The body of the constructor keeps the record straight from the first
    statement to the last. *)
Lemma body_recorded (this : Ref) (__dirname : string)
      (existsSync : string -> bool) :
  preserves grants_recorded (body this __dirname existsSync).
Proof.
  unfold body, new_VectorKnowledgeBase, new_S3DataSource,
    new_LayerVersion, new_Function.
  recorded.
Qed.

(** In the finished graph every role holds exactly the statements the
    journal has it receive. *)
Lemma constructor_records_grants (cfg : Config) (g : Stack) :
  BedrockVoiceKnowledgeStack cfg = Ok g -> grants_recorded g.
Proof.
  unfold BedrockVoiceKnowledgeStack, super. intros H.
  destruct (existsb _ _); [ discriminate | ].
  destruct (valid_stack_name _); [ | discriminate ].
  match type of H with
  | match ?c with _ => _ end = _ => destruct c as [[u s1] | e] eqn:F
  end; [ | discriminate ].
  injection H as <-.
  eapply body_recorded; [ | exact F ].
  split; simpl; [ discriminate | reflexivity ].
Qed.

(** ** Linking *)

Lemma append_empty (s : string) : s ++ "" = s.
Proof.
  induction s as [| a s IH]; simpl; [ reflexivity | now rewrite IH ].
Qed.

(** Linking succeeds exactly on the resolved values. *)
Lemma link_resolved (generated : Ref -> string -> string) (g : Stack) (v : Value) :
  resolved g v = true <-> exists s, link generated g v = Some s.
Proof.
  unfold resolved.
  induction v as [| f v IH]; simpl.
  - split; [ intros _; now eexists | reflexivity ].
  - destruct f as [s | r a]; simpl.
    + rewrite IH. split; intros [t Ht].
      * rewrite Ht. now eexists.
      * destruct (link generated g v); [ now eexists | discriminate ].
    + destruct (constructed g r); simpl.
      * rewrite IH. split; intros [t Ht].
        -- rewrite Ht. now eexists.
        -- destruct (link generated g v); [ now eexists | discriminate ].
      * split; [ discriminate | intros [t Ht]; discriminate ].
Qed.

(** ** The constructor as a whole *)

Ltac run_stack H :=
  match type of H with
  | BedrockVoiceKnowledgeStack ?cfg = _ =>
      let fs := fresh "fs" in
      destruct cfg as [? ? ? ? fs];
      unfold BedrockVoiceKnowledgeStack, super in H;
      cbn [scope id stackprops dirname existsSync] in H;
      destruct (existsb _ _); [ discriminate H | ];
      destruct (valid_stack_name _); [ | discriminate H ];
      vm_compute in H;
      repeat match type of H with
             | context [ fs ?p ] =>
                 destruct (fs p); vm_compute in H; try discriminate H
             end;
      injection H as <-
  end.

Ltac by_cases :=
  repeat match goal with
         | H : _ \/ _ |- _ => destruct H as [H | H]
         | H : False |- _ => contradiction H
         | H : (_, _) = (_, _) |- _ => injection H as <- <-
         end.

(** In a scope that already holds its id, the constructor aborts before
    declaring anything. *)
Lemma constructor_collision (cfg : Config) :
  existsb (String.eqb (sanitizeId (id cfg))) (scope cfg) = true ->
  BedrockVoiceKnowledgeStack cfg = Fail (DuplicateId (sanitizeId (id cfg))).
Proof.
  intros H. unfold BedrockVoiceKnowledgeStack, super. now rewrite H.
Qed.

(** ** Storage *)

(** C6: the storage resource is constructed with public access fully
    blocked, with encryption enabled, with versioning enabled, and with a
    deletion policy that is written out rather than left to the default. *)
Theorem bucket_is_private_encrypted_versioned (cfg : Config) (g : Stack) :
  BedrockVoiceKnowledgeStack cfg = Ok g ->
  exists p,
    buckets g = [ ("DocumentBucket", p) ]
    /\ option_map s3.fully_blocked (s3.blockPublicAccess p) = Some true
    /\ option_map s3.encrypts (s3.encryption p) = Some true
    /\ s3.versioned p = Some true
    /\ s3.removalPolicy p <> None.
Proof.
  intros H. run_stack H.
  eexists. split; [ reflexivity | ].
  repeat split. discriminate.
Qed.

Lemma bucket_is_private_encrypted_versioned_witness :
  exists g, BedrockVoiceKnowledgeStack cfg0 = Ok g /\
  exists p,
    buckets g = [ ("DocumentBucket", p) ]
    /\ option_map s3.fully_blocked (s3.blockPublicAccess p) = Some true
    /\ option_map s3.encrypts (s3.encryption p) = Some true
    /\ s3.versioned p = Some true
    /\ s3.removalPolicy p <> None.
Proof.
  destruct (BedrockVoiceKnowledgeStack cfg0) as [g | e] eqn:E.
  - exists g. split; [ reflexivity | ].
    exact (bucket_is_private_encrypted_versioned cfg0 g E).
  - vm_compute in E. discriminate E.
Defined.

(** C10: whatever the configuration, the bucket's deletion policy is DESTROY
    and its objects are deleted automatically; nothing the constructor is
    given selects a policy that retains the bucket. *)
Theorem bucket_is_destroyed_with_the_stack (cfg : Config) (g : Stack) :
  BedrockVoiceKnowledgeStack cfg = Ok g ->
  forall b p,
    In (b, p) (buckets g) ->
    s3.removalPolicy p = Some s3.DESTROY
    /\ s3.autoDeleteObjects p = Some true
    /\ option_map retains (s3.removalPolicy p) = Some false.
Proof.
  intros H b p Hb. run_stack H.
  simpl in Hb. by_cases. repeat split.
Qed.

Lemma bucket_is_destroyed_with_the_stack_witness :
  exists g p,
    BedrockVoiceKnowledgeStack cfg0 = Ok g
    /\ In ("DocumentBucket", p) (buckets g)
    /\ s3.removalPolicy p = Some s3.DESTROY
    /\ s3.autoDeleteObjects p = Some true
    /\ option_map retains (s3.removalPolicy p) = Some false.
Proof.
  destruct (BedrockVoiceKnowledgeStack cfg0) as [g | e] eqn:E.
  - pose proof E as E'. vm_compute in E'. injection E' as E'.
    assert (Hin : In ("DocumentBucket",
                      {| s3.removalPolicy := Some s3.DESTROY;
                         s3.autoDeleteObjects := Some true;
                         s3.versioned := Some true;
                         s3.blockPublicAccess := Some s3.BLOCK_ALL;
                         s3.encryption := Some s3.S3_MANAGED |})
                     (buckets g)).
    { rewrite <- E'. simpl. left. reflexivity. }
    eexists g, _. split; [ reflexivity | ]. split; [ exact Hin | ].
    exact (bucket_is_destroyed_with_the_stack cfg0 g E _ _ Hin).
  - vm_compute in E. discriminate E.
Defined.

(** ** Permissions *)

(** C1: in both roles, a statement whose resources refer to the bucket has
    exactly the two patterns of that bucket as its resources, and no
    statement that touches storage has the bare wildcard among them. *)
Theorem storage_grants_are_scoped (cfg : Config) (g : Stack) :
  BedrockVoiceKnowledgeStack cfg = Ok g ->
  forall b bp role r st,
    In (b, bp) (buckets g) ->
    In (role, r) (roles g) ->
    In st (iam.statements r) ->
    (references (Child b) st = true ->
     iam.resources st = storagePatterns (Child b))
    /\ (touches_storage (Child b) st = true ->
        existsb is_wildcard (iam.resources st) = false).
Proof.
  intros H b bp role r st Hb Hr Hst. run_stack H.
  simpl in Hb, Hr. by_cases; simpl in Hst; by_cases; subst st;
    split; intros Hyp; solve [ reflexivity | discriminate Hyp ].
Qed.

Lemma storage_grants_are_scoped_witness :
  iam.resources (s3Statement (Child "DocumentBucket"))
  = storagePatterns (Child "DocumentBucket")
  /\ existsb is_wildcard (iam.resources (s3Statement (Child "DocumentBucket"))) = false.
Proof.
  destruct (BedrockVoiceKnowledgeStack cfg0) as [g | e] eqn:E.
  - pose proof E as E'. vm_compute in E'. injection E' as E'.
    destruct (storage_grants_are_scoped cfg0 g E "DocumentBucket"
                {| s3.removalPolicy := Some s3.DESTROY;
                   s3.autoDeleteObjects := Some true;
                   s3.versioned := Some true;
                   s3.blockPublicAccess := Some s3.BLOCK_ALL;
                   s3.encryption := Some s3.S3_MANAGED |}
                "BedrockServiceRole"
                {| iam.assumedBy := iam.ServicePrincipal "bedrock.amazonaws.com";
                   iam.managedPolicies := [ iam.ownedBy "VectorKnowledgeBase" ];
                   iam.statements :=
                     [ s3Statement (Child "DocumentBucket");
                       bedrockInvokeStatement;
                       bucketReadStatement (Child "DocumentBucket") ] |}
                (s3Statement (Child "DocumentBucket"))) as [A B].
    + rewrite <- E'. simpl. left. reflexivity.
    + rewrite <- E'. simpl. right. left. reflexivity.
    + simpl. left. reflexivity.
    + split; [ apply A | apply B ]; reflexivity.
  - vm_compute in E. discriminate E.
Defined.

(** C2, as the code has it: every grant the source declares for a role
    through addToPolicy is a statement of that role.  The handler role's
    statements are exactly its four declared grants, in order, and it is
    constructed with the managed policy
    service-role/AWSLambdaBasicExecutionRole attached by name.  The
    knowledge-engine role's statements are its two declared grants, in
    order, followed by the read grant on the bucket's two patterns that the
    data source gives the role of its knowledge base; and the knowledge
    base attaches a managed policy of its own to it. *)
Theorem role_statements_are_the_declared_grants (cfg : Config) (g : Stack) :
  BedrockVoiceKnowledgeStack cfg = Ok g ->
  (forall x r, lookup x (constructs g) = Some (CRole r) ->
               iam.statements r = granted x (journal g)
               /\ forall st, In st (declared x (journal g)) ->
                             In st (iam.statements r))
  /\ exists lr br,
    roles g = [ ("LambdaServiceRole", lr); ("BedrockServiceRole", br) ]
    /\ iam.statements lr = declared "LambdaServiceRole" (journal g)
    /\ iam.statements lr =
       [ lambdaBedrockStatement; lambdaPollyStatement;
         lambdaTranscribeStatement; s3Statement (Child "DocumentBucket") ]
    /\ iam.managedPolicies lr =
       [ iam.fromAwsManagedPolicyName "service-role/AWSLambdaBasicExecutionRole" ]
    /\ permissions lr =
       (Attached (iam.fromAwsManagedPolicyName
                    "service-role/AWSLambdaBasicExecutionRole")
        :: map Granted (declared "LambdaServiceRole" (journal g)))
    /\ declared "BedrockServiceRole" (journal g) =
       [ s3Statement (Child "DocumentBucket"); bedrockInvokeStatement ]
    /\ iam.statements br =
       (declared "BedrockServiceRole" (journal g)
        ++ [ bucketReadStatement (Child "DocumentBucket") ])%list
    /\ iam.managedPolicies br = attached "BedrockServiceRole" (journal g)
    /\ iam.managedPolicies br = [ iam.ownedBy "VectorKnowledgeBase" ].
Proof.
  intros H. split.
  - intros x r Hx.
    pose proof (proj1 (constructor_records_grants cfg g H) x r Hx) as E.
    split; [ exact E | ].
    intros st Hst. rewrite E. now apply declared_granted.
  - run_stack H.
    eexists _, _. split; [ reflexivity | ].
    repeat split.
Qed.

Lemma role_statements_are_the_declared_grants_witness :
  exists g, BedrockVoiceKnowledgeStack cfg0 = Ok g /\
  exists lr br,
    roles g = [ ("LambdaServiceRole", lr); ("BedrockServiceRole", br) ]
    /\ iam.statements lr = declared "LambdaServiceRole" (journal g)
    /\ iam.statements br =
       (declared "BedrockServiceRole" (journal g)
        ++ [ bucketReadStatement (Child "DocumentBucket") ])%list
    /\ iam.managedPolicies br = [ iam.ownedBy "VectorKnowledgeBase" ].
Proof.
  destruct (BedrockVoiceKnowledgeStack cfg0) as [g | e] eqn:E.
  - exists g. split; [ reflexivity | ].
    destruct (role_statements_are_the_declared_grants cfg0 g E)
      as (_ & lr & br & Hr & Hl & _ & _ & _ & _ & Hb & _ & Hm).
    exists lr, br. repeat split; assumption.
  - vm_compute in E. discriminate E.
Defined.

(** C2, as stated, fails on the handler role: its permissions are not only
    the declared grants, since a managed policy is attached to it. *)
Lemma handler_role_has_an_attached_policy :
  exists g r,
    BedrockVoiceKnowledgeStack cfg0 = Ok g
    /\ In ("LambdaServiceRole", r) (roles g)
    /\ ~ only_declared_grants g "LambdaServiceRole" r.
Proof.
  eexists _, _. split; [ vm_compute; reflexivity | ].
  split; [ simpl; left; reflexivity | ].
  unfold only_declared_grants. vm_compute. discriminate.
Qed.

(** C5: the knowledge base takes as its role a role the knowledge-engine
    service may assume; among that role's statements are reading and
    writing on the bucket bound to the knowledge base, under exactly the
    two patterns of that bucket, and invoking the model; and every
    statement of the role that refers to the bucket has exactly those two
    patterns as its resources. *)
Theorem knowledge_base_role_covers_storage_and_model (cfg : Config) (g : Stack) :
  BedrockVoiceKnowledgeStack cfg = Ok g ->
  exists kb role r ds b bp,
    knowledgeBases g = [ ("VectorKnowledgeBase", kb) ]
    /\ bedrock.existingRole kb = Some (Child role)
    /\ lookup role (constructs g) = Some (CRole r)
    /\ iam.assumedBy r = iam.ServicePrincipal "bedrock.amazonaws.com"
    /\ dataSources g = [ ("S3DataSource", ds) ]
    /\ bedrock.knowledgeBase ds = Child "VectorKnowledgeBase"
    /\ bedrock.bucket ds = Child b
    /\ lookup b (constructs g) = Some (CBucket bp)
    /\ In {| iam.actions := [ "s3:GetObject"; "s3:PutObject"; "s3:ListBucket" ];
             iam.resources := storagePatterns (bedrock.bucket ds) |}
          (iam.statements r)
    /\ In {| iam.actions := [ "bedrock:InvokeModel" ];
             iam.resources := [ lit "*" ] |}
          (iam.statements r)
    /\ forall st, In st (iam.statements r) ->
                  references (bedrock.bucket ds) st = true ->
                  iam.resources st = storagePatterns (bedrock.bucket ds).
Proof.
  intros H. run_stack H.
  eexists _, _, _, _, _, _. split; [ reflexivity | ].
  split; [ reflexivity | ].
  split; [ reflexivity | ].
  split; [ reflexivity | ].
  split; [ reflexivity | ].
  split; [ reflexivity | ].
  split; [ reflexivity | ].
  split; [ reflexivity | ].
  split; [ simpl; left; reflexivity | ].
  split; [ simpl; right; left; reflexivity | ].
  intros st Hst Href. simpl in Hst. by_cases; subst st;
    solve [ reflexivity | discriminate Href ].
Qed.

Lemma knowledge_base_role_covers_storage_and_model_witness :
  exists g, BedrockVoiceKnowledgeStack cfg0 = Ok g /\
  exists kb role r ds b bp,
    knowledgeBases g = [ ("VectorKnowledgeBase", kb) ]
    /\ bedrock.existingRole kb = Some (Child role)
    /\ lookup role (constructs g) = Some (CRole r)
    /\ iam.assumedBy r = iam.ServicePrincipal "bedrock.amazonaws.com"
    /\ dataSources g = [ ("S3DataSource", ds) ]
    /\ bedrock.knowledgeBase ds = Child "VectorKnowledgeBase"
    /\ bedrock.bucket ds = Child b
    /\ lookup b (constructs g) = Some (CBucket bp)
    /\ In {| iam.actions := [ "s3:GetObject"; "s3:PutObject"; "s3:ListBucket" ];
             iam.resources := storagePatterns (bedrock.bucket ds) |}
          (iam.statements r)
    /\ In {| iam.actions := [ "bedrock:InvokeModel" ];
             iam.resources := [ lit "*" ] |}
          (iam.statements r)
    /\ forall st, In st (iam.statements r) ->
                  references (bedrock.bucket ds) st = true ->
                  iam.resources st = storagePatterns (bedrock.bucket ds).
Proof.
  destruct (BedrockVoiceKnowledgeStack cfg0) as [g | e] eqn:E.
  - exists g. split; [ reflexivity | ].
    exact (knowledge_base_role_covers_storage_and_model cfg0 g E).
  - vm_compute in E. discriminate E.
Defined.

(** ** The data source binding *)

(** [fixedSize] accepts exactly the parameters in the valid range. *)
Lemma fixedSize_accepts (maxTokens overlapPercentage : Z) :
  bedrock.fixedSize maxTokens overlapPercentage
  = Some (bedrock.FIXED_SIZE maxTokens overlapPercentage)
  <-> (0 < maxTokens)%Z
      /\ (0 <= bedrock.overlapFraction overlapPercentage)%Q
      /\ (bedrock.overlapFraction overlapPercentage < 1)%Q.
Proof.
  unfold bedrock.fixedSize, bedrock.chunking_in_range.
  split.
  - intros H.
    destruct (0 <? maxTokens)%Z eqn:A; simpl in H; [ | discriminate ].
    destruct (Qle_bool 0 (bedrock.overlapFraction overlapPercentage)) eqn:B;
      simpl in H; [ | discriminate ].
    destruct (Qle_bool 1 (bedrock.overlapFraction overlapPercentage)) eqn:C;
      simpl in H; [ discriminate | ].
    split; [ now apply Z.ltb_lt | ].
    split; [ now apply Qle_bool_iff | ].
    apply Qnot_le_lt. intros D. apply Qle_bool_iff in D. congruence.
  - intros (A & B & C).
    apply Z.ltb_lt in A. apply Qle_bool_iff in B. rewrite A, B. simpl.
    destruct (Qle_bool 1 (bedrock.overlapFraction overlapPercentage)) eqn:D.
    + apply Qle_bool_iff in D. exfalso. exact (Qlt_not_le _ _ C D).
    + reflexivity.
Qed.

(** An overlap of the whole unit is out of range. *)
Lemma fixedSize_rejects_full_overlap (maxTokens : Z) :
  bedrock.fixedSize maxTokens 100 = None.
Proof.
  unfold bedrock.fixedSize, bedrock.chunking_in_range.
  destruct (0 <? maxTokens)%Z; reflexivity.
Qed.

(** C7: the binding is declared with a unit size of 500 and an overlap of
    20 percent, a fraction of 0.20.  These are in the valid range, so the
    chunking strategy is accepted: the constructor is never aborted for its
    chunking parameters, and the stack it builds holds the one binding with
    exactly these parameters. *)
Theorem data_source_binding_is_accepted (cfg : Config) :
  BedrockVoiceKnowledgeStack cfg <> Fail InvalidChunking
  /\ forall g,
       BedrockVoiceKnowledgeStack cfg = Ok g ->
       exists ds maxTokens overlapPercentage,
         dataSources g = [ ("S3DataSource", ds) ]
         /\ bedrock.chunkingStrategy ds
            = bedrock.FIXED_SIZE maxTokens overlapPercentage
         /\ bedrock.fixedSize maxTokens overlapPercentage
            = Some (bedrock.chunkingStrategy ds)
         /\ maxTokens = 500%Z
         /\ (bedrock.overlapFraction overlapPercentage == 20 # 100)%Q
         /\ (0 < maxTokens)%Z
         /\ (0 <= bedrock.overlapFraction overlapPercentage)%Q
         /\ (bedrock.overlapFraction overlapPercentage < 1)%Q.
Proof.
  split.
  - intros H. run_stack H.
  - intros g H. run_stack H.
    eexists _, _, _. split; [ reflexivity | ].
    split; [ reflexivity | ].
    split; [ reflexivity | ].
    split; [ reflexivity | ].
    split; [ reflexivity | ].
    split; [ reflexivity | ].
    split; [ discriminate | reflexivity ].
Qed.

Lemma data_source_binding_is_accepted_witness :
  exists g ds maxTokens overlapPercentage,
    BedrockVoiceKnowledgeStack cfg0 = Ok g
    /\ dataSources g = [ ("S3DataSource", ds) ]
    /\ bedrock.chunkingStrategy ds = bedrock.FIXED_SIZE maxTokens overlapPercentage
    /\ bedrock.fixedSize maxTokens overlapPercentage
       = Some (bedrock.chunkingStrategy ds)
    /\ maxTokens = 500%Z
    /\ (bedrock.overlapFraction overlapPercentage == 20 # 100)%Q
    /\ (0 < maxTokens)%Z
    /\ (0 <= bedrock.overlapFraction overlapPercentage)%Q
    /\ (bedrock.overlapFraction overlapPercentage < 1)%Q.
Proof.
  destruct (BedrockVoiceKnowledgeStack cfg0) as [g | e] eqn:E.
  - destruct (proj2 (data_source_binding_is_accepted cfg0) g E)
      as (ds & m & o & H).
    exists g, ds, m, o. split; [ reflexivity | exact H ].
  - vm_compute in E. discriminate E.
Defined.

(** ** The gateway *)



(** A resource is added below the resource it is called on, whatever else
    the API already holds, and starts with the preflight method of the
    API's CORS policy. *)
Lemma addResource_parent (res child : ResourceRef) (part : string) (s s' : Stack) :
  addResource res part s = Ok (child, s') ->
  api child = api res
  /\ exists a a',
       lookup (api res) (constructs s) = Some (CRestApi a)
       /\ lookup (api res) (constructs s') = Some (CRestApi a')
       /\ index child = length (apigateway.resourceTable a)
       /\ apigateway.resourceTable a' =
          (apigateway.resourceTable a
           ++ [ {| apigateway.parent := Some (index res);
                   apigateway.pathPart := part;
                   apigateway.methods :=
                     apigateway.preflight (apigateway.props a) |} ])%list.
Proof.
  unfold addResource, find_api, store. intros H.
  destruct (lookup (api res) (constructs s)) as [c |] eqn:E; [ | discriminate ].
  destruct c; try discriminate.
  destruct (nth_error (apigateway.resourceTable a) (index res)); [ | discriminate ].
  destruct (existsb _ _); [ discriminate | ].
  injection H as <- <-. simpl.
  split; [ reflexivity | ].
  eexists _, _. split; [ reflexivity | ].
  split; [ eapply lookup_replace_same; exact E | ].
  split; reflexivity.
Qed.

(** C3, as the code has it: the API has exactly two top-level resources,
    knowledge-base and transcribe, and exactly two POST methods, each bound
    to exactly one function: the one on /knowledge-base/query, a resource
    below knowledge-base, to the query function (Handler B), and the one on
    the top-level /transcribe to the speech-to-text function (Handler A).
    The knowledge-base resource itself carries no POST method.  Each
    function is constructed before the method bound to it is added. *)
Theorem routes_bind_the_two_handlers (cfg : Config) (g : Stack) :
  BedrockVoiceKnowledgeStack cfg = Ok g ->
  exists a fa fb,
    restApis g = [ ("MultimodalKnowledgeApi", a) ]
    /\ map apigateway.pathPart (apigateway.top_level a)
       = [ "knowledge-base"; "transcribe" ]
    /\ verb_routes "POST" a =
       [ ("/knowledge-base/query", "POST",
          apigateway.LambdaIntegration (Child "QueryWithVoiceFunction"));
         ("/transcribe", "POST",
          apigateway.LambdaIntegration (Child "SpeechToTextFunction")) ]
    /\ (forall r, In r (apigateway.resourceTable a) ->
                  apigateway.pathPart r = "knowledge-base" ->
                  apigateway.verb_methods "POST" r = [])
    /\ functions g =
       [ ("SpeechToTextFunction", fa); ("QueryWithVoiceFunction", fb) ]
    /\ lambda.handler fa = "transcribe_function.lambda_handler"
    /\ lambda.handler fb = "kb_polly_function.lambda_handler"
    /\ handlers_before_routes [] (journal g) = true
    /\ length (filter is_route (journal g)) = 2%nat
    /\ constructed_before g "QueryWithVoiceFunction" "MultimodalKnowledgeApi" = true
    /\ constructed_before g "SpeechToTextFunction" "MultimodalKnowledgeApi" = true.
Proof.
  intros H. run_stack H.
  eexists _, _, _. split; [ reflexivity | ].
  split; [ reflexivity | ].
  split; [ reflexivity | ].
  split.
  { intros r Hr Hp. simpl in Hr. by_cases; subst r;
      solve [ reflexivity | discriminate Hp ]. }
  split; [ reflexivity | ].
  repeat split.
Qed.

Lemma routes_bind_the_two_handlers_witness :
  exists g, BedrockVoiceKnowledgeStack cfg0 = Ok g /\
  exists a fa fb,
    restApis g = [ ("MultimodalKnowledgeApi", a) ]
    /\ map apigateway.pathPart (apigateway.top_level a)
       = [ "knowledge-base"; "transcribe" ]
    /\ verb_routes "POST" a =
       [ ("/knowledge-base/query", "POST",
          apigateway.LambdaIntegration (Child "QueryWithVoiceFunction"));
         ("/transcribe", "POST",
          apigateway.LambdaIntegration (Child "SpeechToTextFunction")) ]
    /\ (forall r, In r (apigateway.resourceTable a) ->
                  apigateway.pathPart r = "knowledge-base" ->
                  apigateway.verb_methods "POST" r = [])
    /\ functions g =
       [ ("SpeechToTextFunction", fa); ("QueryWithVoiceFunction", fb) ]
    /\ lambda.handler fa = "transcribe_function.lambda_handler"
    /\ lambda.handler fb = "kb_polly_function.lambda_handler"
    /\ handlers_before_routes [] (journal g) = true
    /\ length (filter is_route (journal g)) = 2%nat
    /\ constructed_before g "QueryWithVoiceFunction" "MultimodalKnowledgeApi" = true
    /\ constructed_before g "SpeechToTextFunction" "MultimodalKnowledgeApi" = true.
Proof.
  destruct (BedrockVoiceKnowledgeStack cfg0) as [g | e] eqn:E.
  - exists g. split; [ reflexivity | ].
    exact (routes_bind_the_two_handlers cfg0 g E).
  - vm_compute in E. discriminate E.
Defined.

(** C3, as stated, fails: of the two top-level resources, knowledge-base
    carries no POST method; the query route sits one level below it. *)
Lemma top_level_resource_without_a_method :
  exists g a,
    BedrockVoiceKnowledgeStack cfg0 = Ok g
    /\ lookup "MultimodalKnowledgeApi" (constructs g) = Some (CRestApi a)
    /\ ~ top_level_post_routes a.
Proof.
  eexists _, _. split; [ vm_compute; reflexivity | ].
  split; [ reflexivity | ].
  intros [_ H].
  destruct (H {| apigateway.parent := Some 0%nat;
                 apigateway.pathPart := "knowledge-base";
                 apigateway.methods :=
                   [ {| apigateway.httpMethod := "OPTIONS";
                        apigateway.integration := apigateway.MockIntegration |} ]
              |}) as [m Hm].
  - simpl. left. reflexivity.
  - discriminate Hm.
Qed.

(** ** Handler environments *)

(** C4: the speech-to-text function's environment is the one entry REGION,
    the stack's region.  The query function's environment is the three
    entries KNOWLEDGE_BASE_ID, REGION and DATA_SOURCE_ID; the first and the
    last read the identifiers of the knowledge base and of the data source,
    both constructed before the function, so every value is resolved in the
    finished graph and links to the generated identifier. *)
Theorem handler_environments_are_resolved (cfg : Config) (g : Stack) :
  BedrockVoiceKnowledgeStack cfg = Ok g ->
  exists fa fb,
    functions g = [ ("SpeechToTextFunction", fa); ("QueryWithVoiceFunction", fb) ]
    /\ lambda.environment fa = [ ("REGION", region This) ]
    /\ lambda.environment fb =
       [ ("KNOWLEDGE_BASE_ID", knowledgeBaseId (Child "VectorKnowledgeBase"));
         ("REGION", region This);
         ("DATA_SOURCE_ID", dataSourceId (Child "S3DataSource")) ]
    /\ map fst (knowledgeBases g) = [ "VectorKnowledgeBase" ]
    /\ map fst (dataSources g) = [ "S3DataSource" ]
    /\ constructed_before g "VectorKnowledgeBase" "QueryWithVoiceFunction" = true
    /\ constructed_before g "S3DataSource" "QueryWithVoiceFunction" = true
    /\ forallb (fun kv => resolved g (snd kv)) (lambda.environment fb) = true
    /\ forall generated,
         link_environment generated g (lambda.environment fb) =
         [ ("KNOWLEDGE_BASE_ID",
            Some (generated (Child "VectorKnowledgeBase") "knowledgeBaseId"));
           ("REGION", Some (generated This "region"));
           ("DATA_SOURCE_ID",
            Some (generated (Child "S3DataSource") "dataSourceId")) ].
Proof.
  intros H. run_stack H.
  eexists _, _. split; [ reflexivity | ].
  split; [ reflexivity | ].
  split; [ reflexivity | ].
  split; [ reflexivity | ].
  split; [ reflexivity | ].
  split; [ reflexivity | ].
  split; [ reflexivity | ].
  split; [ reflexivity | ].
  intros generated. unfold link_environment. simpl.
  now rewrite !append_empty.
Qed.

Lemma handler_environments_are_resolved_witness :
  exists g, BedrockVoiceKnowledgeStack cfg0 = Ok g /\
  exists fa fb,
    functions g = [ ("SpeechToTextFunction", fa); ("QueryWithVoiceFunction", fb) ]
    /\ lambda.environment fa = [ ("REGION", region This) ]
    /\ lambda.environment fb =
       [ ("KNOWLEDGE_BASE_ID", knowledgeBaseId (Child "VectorKnowledgeBase"));
         ("REGION", region This);
         ("DATA_SOURCE_ID", dataSourceId (Child "S3DataSource")) ]
    /\ map fst (knowledgeBases g) = [ "VectorKnowledgeBase" ]
    /\ map fst (dataSources g) = [ "S3DataSource" ]
    /\ constructed_before g "VectorKnowledgeBase" "QueryWithVoiceFunction" = true
    /\ constructed_before g "S3DataSource" "QueryWithVoiceFunction" = true
    /\ forallb (fun kv => resolved g (snd kv)) (lambda.environment fb) = true
    /\ forall generated,
         link_environment generated g (lambda.environment fb) =
         [ ("KNOWLEDGE_BASE_ID",
            Some (generated (Child "VectorKnowledgeBase") "knowledgeBaseId"));
           ("REGION", Some (generated This "region"));
           ("DATA_SOURCE_ID",
            Some (generated (Child "S3DataSource") "dataSourceId")) ].
Proof.
  destruct (BedrockVoiceKnowledgeStack cfg0) as [g | e] eqn:E.
  - exists g. split; [ reflexivity | ].
    exact (handler_environments_are_resolved cfg0 g E).
  - vm_compute in E. discriminate E.
Defined.

(** * Further properties of the constructor *)

Ltac at_cfg0 g E E' :=
  destruct (BedrockVoiceKnowledgeStack cfg0) as [g | ?e] eqn:E;
  [ pose proof E as E'; vm_compute in E'; injection E' as E'
  | vm_compute in E; discriminate E ].

Ltac found E' :=
  rewrite <- E'; simpl; repeat first [ left; reflexivity | right ].

(** ** Statements *)

(** X1: every statement of either role is of one of two shapes.  Either all
    its actions are storage actions and its resources are the two patterns
    of the stack's bucket, or none of its actions is a storage action, it
    reads no property of any construct, and its only resource is the
    wildcard. *)
Theorem statements_are_scoped_or_wildcard (cfg : Config) (g : Stack) :
  BedrockVoiceKnowledgeStack cfg = Ok g ->
  forall role r st,
    In (role, r) (roles g) ->
    In st (iam.statements r) ->
    (only_storage_actions st = true
     /\ exists b bp, In (b, bp) (buckets g)
                     /\ iam.resources st = storagePatterns (Child b))
    \/ (no_storage_action st = true
        /\ flat_map refs_of (iam.resources st) = []
        /\ iam.resources st = [ lit "*" ]).
Proof.
  intros H role r st Hr Hst. run_stack H.
  simpl in Hr. by_cases; simpl in Hst; by_cases; subst st;
    first [ right; repeat split; reflexivity
          | left; split; [ reflexivity | ];
            eexists _, _; split; [ simpl; left; reflexivity | reflexivity ] ].
Qed.

Lemma statements_are_scoped_or_wildcard_witness :
  exists g r st,
    BedrockVoiceKnowledgeStack cfg0 = Ok g
    /\ In ("LambdaServiceRole", r) (roles g)
    /\ In st (iam.statements r)
    /\ ((only_storage_actions st = true
         /\ exists b bp, In (b, bp) (buckets g)
                         /\ iam.resources st = storagePatterns (Child b))
        \/ (no_storage_action st = true
            /\ flat_map refs_of (iam.resources st) = []
            /\ iam.resources st = [ lit "*" ])).
Proof.
  at_cfg0 g E E'.
  eexists g, _, _. split; [ reflexivity | ].
  split; [ found E' | ].
  split; [ simpl; left; reflexivity | ].
  eapply (statements_are_scoped_or_wildcard cfg0 g E "LambdaServiceRole").
  - found E'.
  - simpl. left. reflexivity.
Defined.



(** ** Roles and their users *)



(** X4: every function runs under the same role, and that role lists what
    the handlers call: retrieval and generation on the knowledge engine,
    speech synthesis, streaming transcription, and reading and writing
    objects. *)
Theorem handlers_share_a_capable_role (cfg : Config) (g : Stack) :
  BedrockVoiceKnowledgeStack cfg = Ok g ->
  forall f p f' p',
    In (f, p) (functions g) ->
    In (f', p') (functions g) ->
    lambda.role p = lambda.role p'
    /\ exists r,
         find (lambda.role p) g = Some (CRole r)
         /\ forallb (lists_action r)
              [ "bedrock:Retrieve"; "bedrock:RetrieveAndGenerate";
                "bedrock:InvokeModel"; "polly:SynthesizeSpeech";
                "transcribe:StartStreamTranscription";
                "s3:GetObject"; "s3:PutObject" ] = true.
Proof.
  intros H f p f' p' Hp Hp'. run_stack H.
  simpl in Hp, Hp'. by_cases.
  all: split; [ reflexivity | ].
  all: eexists; split; reflexivity.
Qed.

Lemma handlers_share_a_capable_role_witness :
  exists g p p',
    BedrockVoiceKnowledgeStack cfg0 = Ok g
    /\ In ("SpeechToTextFunction", p) (functions g)
    /\ In ("QueryWithVoiceFunction", p') (functions g)
    /\ lambda.role p = lambda.role p'
    /\ exists r,
         find (lambda.role p) g = Some (CRole r)
         /\ forallb (lists_action r)
              [ "bedrock:Retrieve"; "bedrock:RetrieveAndGenerate";
                "bedrock:InvokeModel"; "polly:SynthesizeSpeech";
                "transcribe:StartStreamTranscription";
                "s3:GetObject"; "s3:PutObject" ] = true.
Proof.
  at_cfg0 g E E'.
  eexists g, _, _. split; [ reflexivity | ].
  split; [ found E' | ].
  split; [ found E' | ].
  eapply (handlers_share_a_capable_role cfg0 g E
            "SpeechToTextFunction" _ "QueryWithVoiceFunction" _);
    found E'.
Defined.

(** X5: a function is given only layers of this stack that were constructed
    before it and that list the function's runtime among their compatible
    runtimes. *)
Theorem layers_fit_their_functions (cfg : Config) (g : Stack) :
  BedrockVoiceKnowledgeStack cfg = Ok g ->
  forall f p l,
    In (f, p) (functions g) ->
    In l (lambda.layers p) ->
    exists x lp,
      l = Child x
      /\ lookup x (constructs g) = Some (CLayerVersion lp)
      /\ In (lambda.runtime p) (lambda.compatibleRuntimes lp)
      /\ constructed_before g x f = true.
Proof.
  intros H f p l Hp Hl. run_stack H.
  simpl in Hp. by_cases; simpl in Hl; by_cases; subst l.
  eexists _, _. split; [ reflexivity | ].
  split; [ reflexivity | ].
  split; [ simpl; left; reflexivity | reflexivity ].
Qed.

Lemma layers_fit_their_functions_witness :
  exists g p l x lp,
    BedrockVoiceKnowledgeStack cfg0 = Ok g
    /\ In ("SpeechToTextFunction", p) (functions g)
    /\ In l (lambda.layers p)
    /\ l = Child x
    /\ lookup x (constructs g) = Some (CLayerVersion lp)
    /\ In (lambda.runtime p) (lambda.compatibleRuntimes lp)
    /\ constructed_before g x "SpeechToTextFunction" = true.
Proof.
  at_cfg0 g E E'.
  assert (Hin : exists p, In ("SpeechToTextFunction", p) (functions g)
                          /\ In (Child "TranscribeLayer") (lambda.layers p)).
  { eexists. split; [ found E' | simpl; left; reflexivity ]. }
  destruct Hin as (p & Hp & Hl).
  destruct (layers_fit_their_functions cfg0 g E _ p _ Hp Hl) as (x & lp & H).
  exists g, p, (Child "TranscribeLayer"), x, lp.
  split; [ reflexivity | ]. split; [ exact Hp | ]. split; [ exact Hl | exact H ].
Defined.

(** ** The graph as a whole *)



(** ** Outputs *)

(** X9: the stack exports four values: the URL of the API, the identifiers
    of the knowledge base and of the data source, and the name of the
    bucket.  Each reads a property of a construct declared before the
    output, so each is resolved in the finished graph; and every identifier
    a function is given in its environment is among the exported values. *)
Theorem outputs_export_the_generated_identifiers (cfg : Config) (g : Stack) :
  BedrockVoiceKnowledgeStack cfg = Ok g ->
  map (fun op => (fst op, value (snd op))) (outputs g)
  = [ ("ApiUrl", url (Child "MultimodalKnowledgeApi"));
      ("KnowledgeBaseId", knowledgeBaseId (Child "VectorKnowledgeBase"));
      ("DataSourceId", dataSourceId (Child "S3DataSource"));
      ("DocumentBucketName", bucketName (Child "DocumentBucket")) ]
  /\ (forall o p,
        In (o, p) (outputs g) ->
        resolved g (value p) = true
        /\ forallb (fun r => match r with
                             | This => false
                             | Child x => constructed_before g x o
                             end) (refs_of (value p)) = true)
  /\ (forall f p k v,
        In (f, p) (functions g) ->
        In (k, v) (lambda.environment p) ->
        mentions This v = false ->
        exists o q, In (o, q) (outputs g) /\ value q = v).
Proof.
  intros H. run_stack H.
  split; [ reflexivity | ].
  split.
  - intros o p Hp. simpl in Hp. by_cases; split; reflexivity.
  - intros f p k v Hp Hv Hm. simpl in Hp. by_cases; simpl in Hv; by_cases;
      try discriminate Hm.
    + eexists _, _. split; [ simpl; right; left; reflexivity | reflexivity ].
    + eexists _, _.
      split; [ simpl; right; right; left; reflexivity | reflexivity ].
Qed.

Lemma outputs_export_the_generated_identifiers_witness :
  exists g,
    BedrockVoiceKnowledgeStack cfg0 = Ok g
    /\ map (fun op => (fst op, value (snd op))) (outputs g)
       = [ ("ApiUrl", url (Child "MultimodalKnowledgeApi"));
           ("KnowledgeBaseId", knowledgeBaseId (Child "VectorKnowledgeBase"));
           ("DataSourceId", dataSourceId (Child "S3DataSource"));
           ("DocumentBucketName", bucketName (Child "DocumentBucket")) ].
Proof.
  at_cfg0 g E E'.
  exists g. split; [ reflexivity | ].
  exact (proj1 (outputs_export_the_generated_identifiers cfg0 g E)).
Defined.

(** ** The resource tree *)

(** X10: the API's resources form a tree under the root [/], with pairwise
    distinct paths and no path parameter.  Under the default CORS policy
    every resource, the root included, carries one preflight method:
    OPTIONS on a mock integration.  Every other method is a POST bound to a
    function of this stack, and these sit on leaves only, never on the
    root. *)
Theorem gateway_routes_are_static_leaves (cfg : Config) (g : Stack) :
  BedrockVoiceKnowledgeStack cfg = Ok g ->
  forall x a,
    In (x, a) (restApis g) ->
    parents_precede 0 (apigateway.resourceTable a) = true
    /\ apigateway.path_of a apigateway.root = "/"
    /\ distinct (paths a) = true
    /\ forallb is_static (map apigateway.pathPart (apigateway.resourceTable a))
       = true
    /\ (forall r, In r (apigateway.resourceTable a) ->
                  filter is_preflight (apigateway.methods r)
                  = [ {| apigateway.httpMethod := "OPTIONS";
                         apigateway.integration := apigateway.MockIntegration |} ])
    /\ (forall i, In i (routed_from 0 (apigateway.resourceTable a)) ->
                  i <> apigateway.root /\ apigateway.children_of a i = [])
    /\ (forall r m,
          In r (apigateway.resourceTable a) ->
          In m (apigateway.methods r) ->
          is_preflight m = false ->
          apigateway.httpMethod m = "POST"
          /\ exists fn,
               apigateway.integration m = apigateway.LambdaIntegration fn
               /\ has_kind g (fn, KFunction) = true).
Proof.
  intros H x a Ha. run_stack H.
  simpl in Ha. by_cases.
  split; [ reflexivity | ].
  split; [ reflexivity | ].
  split; [ reflexivity | ].
  split; [ reflexivity | ].
  split.
  { intros r Hr. simpl in Hr. by_cases; subst r; reflexivity. }
  split.
  - intros i Hi. simpl in Hi. by_cases; subst i;
      (split; [ discriminate | reflexivity ]).
  - intros r m Hr Hm Hp. simpl in Hr. by_cases; subst r; simpl in Hm; by_cases;
      subst m; try discriminate Hp.
    all: split; [ reflexivity | ].
    all: eexists; split; reflexivity.
Qed.

Lemma gateway_routes_are_static_leaves_witness :
  exists g a,
    BedrockVoiceKnowledgeStack cfg0 = Ok g
    /\ In ("MultimodalKnowledgeApi", a) (restApis g)
    /\ parents_precede 0 (apigateway.resourceTable a) = true
    /\ apigateway.path_of a apigateway.root = "/"
    /\ distinct (paths a) = true.
Proof.
  at_cfg0 g E E'.
  assert (Hin : exists a, In ("MultimodalKnowledgeApi", a) (restApis g)).
  { eexists. found E'. }
  destruct Hin as (a & Ha).
  exists g, a. split; [ reflexivity | ]. split; [ exact Ha | ].
  destruct (gateway_routes_are_static_leaves cfg0 g E _ a Ha)
    as (H1 & H2 & H3 & _).
  split; [ exact H1 | ]. split; [ exact H2 | exact H3 ].
Defined.
